(** * A shallow embedding of sandpiper's analyzer (src/sandpiper/analyzer.py)

    The module [analyzer.py] parses a Python file with [ast.parse], extracts
    imports, classes, methods, functions and module-level variables, scans
    every [ast.Name] node for references to those declarations, counts
    complexity nodes, and aggregates per-file results over a directory walk.

    The parser is the external tree provider: a source file is given here
    together with the outcome of [ast.parse] (a module body, or a syntax
    error).  Python dicts are association lists in insertion order; the
    [defaultdict(int)] reads of the code are [dd_get] (a missing key reads 0).
    Strings are Rocq [string]s; [str.lower] and [str.strip] act on ASCII. *)

From Stdlib Require Import String Ascii List ZArith Bool Lia Permutation.
Import ListNotations.
Set Warnings "-register-all".
Open Scope Z_scope.

(* ------------------------------------------------------------------ *)
(** ** Python string helpers *)

Module PyStr.

Definition chars (s : string) : list ascii := list_ascii_of_string s.

(** [s.endswith(suf)] *)
Definition endswith (suf s : string) : bool :=
  let n := String.length s in
  let m := String.length suf in
  (m <=? n)%nat && String.eqb (substring (n - m) m s) suf.

(** [s.startswith(pre)] *)
Definition startswith (pre s : string) : bool := String.prefix pre s.

(** [str.lower] on ASCII letters. *)
Definition lower_char (c : ascii) : ascii :=
  let n := nat_of_ascii c in
  if ((65 <=? n) && (n <=? 90))%nat then ascii_of_nat (n + 32) else c.

Fixpoint lower (s : string) : string :=
  match s with
  | EmptyString => EmptyString
  | String c r => String (lower_char c) (lower r)
  end.

(** [s.split('.')[0]]: the text before the first dot. *)
Fixpoint first_seg (s : string) : string :=
  match s with
  | EmptyString => EmptyString
  | String c r => if Ascii.eqb c "."%char then EmptyString else String c (first_seg r)
  end.

(** ASCII characters for which [str.isspace] holds. *)
Definition is_space (c : ascii) : bool :=
  let n := nat_of_ascii c in
  ((9 <=? n) && (n <=? 13))%nat || ((28 <=? n) && (n <=? 32))%nat.

Fixpoint lstrip (s : string) : string :=
  match s with
  | EmptyString => EmptyString
  | String c r => if is_space c then lstrip r else s
  end.

Definition rstrip (s : string) : string :=
  string_of_list_ascii (rev (list_ascii_of_string (lstrip
    (string_of_list_ascii (rev (list_ascii_of_string s)))))).

(** [s.strip()] *)
Definition strip (s : string) : string := rstrip (lstrip s).

(** Index of the last occurrence of [c] in [l]. *)
Fixpoint rfind_aux (c : ascii) (l : list ascii) (i : nat) (acc : option nat) : option nat :=
  match l with
  | [] => acc
  | x :: r => rfind_aux c r (S i) (if Ascii.eqb x c then Some i else acc)
  end.

Definition rfind (c : ascii) (s : string) : option nat := rfind_aux c (chars s) 0 None.

(** [os.path.basename]: the text after the last ['/']. *)
Definition basename (p : string) : string :=
  match rfind "/"%char p with
  | Some i => substring (S i) (String.length p - S i) p
  | None => p
  end.

(** [os.path.splitext(p)[0]] (posixpath): a leading run of dots is not an
    extension separator. *)
Definition splitext_root (p : string) : string :=
  let sep := match rfind "/"%char p with Some i => S i | None => 0%nat end in
  match rfind "."%char p with
  | Some d =>
      if (sep <=? d)%nat &&
         existsb (fun ch => negb (Ascii.eqb ch "."%char))
                 (firstn (d - sep) (skipn sep (chars p)))
      then substring 0 d p else p
  | None => p
  end.

(** [os.path.join(a, b)] for a relative [b]. *)
Definition join (a b : string) : string :=
  if startswith "/" b then b
  else if String.eqb a "" || endswith "/" a then a ++ b
  else a ++ "/" ++ b.

End PyStr.

(* ------------------------------------------------------------------ *)
(** ** The syntax tree handed over by [ast.parse]

    Only the node classes the analyzer tests with [isinstance] get their own
    constructor; every other class is [Node KOther].  Children are listed in
    the order of [ast.iter_child_nodes].  [ast.alias] nodes carry no [Name]
    and no children, so the name lists of imports are plain data. *)

Record alias := mk_alias { al_name : string; al_asname : option string }.

Inductive kind := KIf | KIfExp | KFor | KWhile | KAsyncFor | KBoolOp | KCall | KOther.

Inductive node :=
| Module (body : list node)
(** [ClassDef]: bases and keywords, body, decorator list *)
| ClassDef (name : string) (lineno : Z) (bases : list node) (body : list node)
           (decorators : list node)
(** [FunctionDef]: [params] are the names [arg.arg] of [args.args];
    [argnodes] are the annotation and default expressions of [args]. *)
| FunctionDef (name : string) (lineno : Z) (params : list string)
              (argnodes : list node) (body : list node) (decorators : list node)
| Import (lineno : Z) (names : list alias)
| ImportFrom (lineno : Z) (module : option string) (names : list alias)
| Assign (targets : list node) (value : node)
| Name (id : string) (lineno : Z) (col_offset : Z)
| Try (body : list node) (handlers : list node) (orelse : list node)
      (finalbody : list node)
| Node (k : kind) (cs : list node).

(** [ast.iter_child_nodes] *)
Definition children (t : node) : list node :=
  match t with
  | Module b => b
  | ClassDef _ _ bs b ds => bs ++ b ++ ds
  | FunctionDef _ _ _ a b ds => a ++ b ++ ds
  | Import _ _ | ImportFrom _ _ _ | Name _ _ _ => []
  | Assign ts v => ts ++ [v]
  | Try b h o f => b ++ h ++ o ++ f
  | Node _ cs => cs
  end.

(** Induction over the tree, through the children lists. *)
Fixpoint node_rect_children (P : node -> Prop)
  (H : forall t, Forall P (children t) -> P t) (t : node) : P t :=
  let fix fl (l : list node) : Forall P l :=
    match l with
    | [] => Forall_nil P
    | x :: r => Forall_cons x (node_rect_children P H x) (fl r)
    end in
  let fa := fun a b (Ha : Forall P a) (Hb : Forall P b) =>
              proj2 (Forall_app P a b) (conj Ha Hb) in
  H t (match t return Forall P (children t) with
       | Module b => fl b
       | ClassDef _ _ bs b ds => fa _ _ (fl bs) (fa _ _ (fl b) (fl ds))
       | FunctionDef _ _ _ a b ds => fa _ _ (fl a) (fa _ _ (fl b) (fl ds))
       | Import _ _ | ImportFrom _ _ _ | Name _ _ _ => Forall_nil P
       | Assign ts v => fa _ _ (fl ts) (Forall_cons v (node_rect_children P H v) (Forall_nil P))
       | Try b h o f => fa _ _ (fl b) (fa _ _ (fl h) (fa _ _ (fl o) (fl f)))
       | Node _ cs => fl cs
       end).

(** [s] occurs in [t] at any depth (including [t] itself). *)
Inductive occurs (s : node) : node -> Prop :=
| occurs_here : occurs s s
| occurs_child t c : In c (children t) -> occurs s c -> occurs s t.

(** ** [ast.walk]

    [ast.walk] is a breadth-first traversal driven by a deque: the root, then
    all nodes at depth 1 left to right, then depth 2, and so on.  [levels t]
    lists the nodes of [t] depth by depth; the levels of a node are its own
    singleton followed by the pointwise concatenation of its children's
    levels. *)

Fixpoint zip_app {A} (a b : list (list A)) : list (list A) :=
  match a, b with
  | [], _ => b
  | _, [] => a
  | x :: a', y :: b' => (x ++ y) :: zip_app a' b'
  end.

Definition merge_levels {A} (ls : list (list (list A))) : list (list A) :=
  fold_right zip_app [] ls.

Fixpoint levels (t : node) : list (list node) :=
  let fix lv (l : list node) : list (list (list node)) :=
    match l with [] => [] | x :: r => levels x :: lv r end in
  [t] :: merge_levels
    (match t with
     | Module b => lv b
     | ClassDef _ _ bs b ds => lv bs ++ lv b ++ lv ds
     | FunctionDef _ _ _ a b ds => lv a ++ lv b ++ lv ds
     | Import _ _ | ImportFrom _ _ _ | Name _ _ _ => []
     | Assign ts v => lv ts ++ [levels v]
     | Try b h o f => lv b ++ lv h ++ lv o ++ lv f
     | Node _ cs => lv cs
     end).

Definition walk (t : node) : list node := concat (levels t).

(* ------------------------------------------------------------------ *)
(** ** Python dicts as association lists in insertion order *)

Module Dict.

Fixpoint lookup {A} (k : string) (d : list (string * A)) : option A :=
  match d with
  | [] => None
  | (k', v) :: r => if String.eqb k k' then Some v else lookup k r
  end.

(** [k in d] *)
Definition mem {A} (k : string) (d : list (string * A)) : bool :=
  match lookup k d with Some _ => true | None => false end.

(** [d[k] = v]: an existing key keeps its position. *)
Fixpoint assign {A} (k : string) (v : A) (d : list (string * A)) : list (string * A) :=
  match d with
  | [] => [(k, v)]
  | (k', v') :: r => if String.eqb k k' then (k', v) :: r else (k', v') :: assign k v r
  end.

(** [d.setdefault(k, []).append(x)] *)
Definition setdefault_append {A} (k : string) (x : A) (d : list (string * list A))
  : list (string * list A) :=
  match lookup k d with
  | Some l => assign k (l ++ [x]) d
  | None => d ++ [(k, [x])]
  end.

(** Reading a [defaultdict(int)] (or [d.get(k, 0)]). *)
Definition dd_get (k : string) (d : list (string * Z)) : Z :=
  match lookup k d with Some v => v | None => 0 end.

(** [d[k] += v] on a [defaultdict(int)]. *)
Definition dd_add (k : string) (v : Z) (d : list (string * Z)) : list (string * Z) :=
  assign k (dd_get k d + v) d.

End Dict.

(* ------------------------------------------------------------------ *)
(** ** analyze_python_file *)

(** [x or default] for an optional string ([None] and [''] are falsy). *)
Definition py_or (o : option string) (d : string) : string :=
  match o with
  | Some s => if String.eqb s "" then d else s
  | None => d
  end.

Definition in_set (x : string) (s : list string) : bool := existsb (String.eqb x) s.

Inductive import_entry :=
| ImpPlain (name : string) (alias : option string) (line : Z)
| ImpFrom (module : string) (name : string) (alias : option string) (line : Z).

(** Entries keep the fields the analysis computes from the tree; the
    [docstring] fields ([ast.get_docstring]) and the [references] lists of
    class, method, function and variable entries, which the code always
    leaves empty, are not modelled. *)
Record method_entry := mk_method
  { m_name : string; m_line : Z; m_parameters : list string }.

Record class_entry := mk_class
  { c_name : string; c_line_start : Z; c_methods : list method_entry }.

Record func_entry := mk_func
  { f_name : string; f_line : Z; f_parameters : list string }.

Record var_entry := mk_var { v_name : string; v_line : Z }.

Record reference := mk_ref { r_line : Z; r_column : Z; r_context : string }.

(** [result['structure']]; [st_imports = None] once the key was popped. *)
Record structure := mk_structure
  { st_imports : option (list import_entry);
    st_classes : list class_entry;
    st_functions : list func_entry;
    st_variables : list var_entry }.

Record metrics := mk_metrics
  { mt_conditional_count : Z;
    mt_loop_count : Z;
    mt_detailed_complexity : list (string * Z);
    mt_complexity : Z }.

Record file_info := mk_info
  { fi_filename : string; fi_path : string; fi_size_bytes : Z; fi_line_count : Z }.

Record file_ok := mk_file_ok
  { fa_file_info : file_info;
    fa_structure : structure;
    fa_metrics : metrics;
    fa_references : list (string * list reference);
    fa_summary : list (string * Z) }.

(** The two shapes of a FileAnalysis: the full result, or
    [{'file_info': {'filename', 'path'}, 'error': str(e)}]. *)
Inductive file_analysis :=
| FA_ok (r : file_ok)
| FA_error (filename : string) (path : string) (error : string).

(** What [open] + [read] + [ast.parse] + [splitlines] produce for a file. *)
Inductive parse_outcome :=
| Parsed (body : list node) (lines : list string) (size_bytes : Z)
| ParseError (msg : string).

(** ---- IMPORTS ---- ([ast.walk] over the whole tree) *)
Definition import_step (acc : list import_entry * list string) (n : node)
  : list import_entry * list string :=
  let '(entries, imported) := acc in
  match n with
  | Import l als =>
      fold_left (fun '(es, im) a =>
                   (es ++ [ImpPlain (al_name a) (al_asname a) l],
                    im ++ [py_or (al_asname a) (PyStr.first_seg (al_name a))]))
                als (entries, imported)
  | ImportFrom l m als =>
      let module := py_or m "" in
      fold_left (fun '(es, im) a =>
                   (es ++ [ImpFrom module (al_name a) (al_asname a) l],
                    im ++ [py_or (al_asname a) (al_name a)]))
                als (entries, imported)
  | _ => acc
  end.

Definition collect_imports (tree : node) : list import_entry * list string :=
  fold_left import_step (walk tree) ([], []).

(** The shadow set [imported]. *)
Definition shadow_set (tree : node) : list string := snd (collect_imports tree).

(** Methods of a class: direct [FunctionDef] children of its body. *)
Definition methods_of (body : list node) : list method_entry :=
  flat_map (fun ch => match ch with
                      | FunctionDef n l ps _ _ _ => [mk_method n l ps]
                      | _ => []
                      end) body.

Definition definitions_t := list (string * list Z).

(** ---- CLASSES & METHODS ---- *)
Definition class_step (imported : list string)
  (acc : list class_entry * definitions_t) (n : node) : list class_entry * definitions_t :=
  let '(classes, defs) := acc in
  match n with
  | ClassDef cls_name l _ b _ =>
      if negb (in_set cls_name imported) then
        let defs1 := Dict.setdefault_append cls_name l defs in
        let ms := methods_of b in
        let defs2 := fold_left (fun d m => Dict.setdefault_append (m_name m) (m_line m) d)
                               ms defs1 in
        (classes ++ [mk_class cls_name l ms], defs2)
      else acc
  | _ => acc
  end.

(** ---- FUNCTIONS ---- *)
Definition is_method (classes : list class_entry) (name : string) (line : Z) : bool :=
  existsb (fun c => existsb (fun m => String.eqb (m_name m) name && (m_line m =? line))
                            (c_methods c)) classes.

Definition function_step (imported : list string) (classes : list class_entry)
  (acc : list func_entry * definitions_t) (n : node) : list func_entry * definitions_t :=
  let '(funcs, defs) := acc in
  match n with
  | FunctionDef f l ps _ _ _ =>
      if negb (in_set f imported) then
        if is_method classes f l then acc
        else (funcs ++ [mk_func f l ps], Dict.setdefault_append f l defs)
      else acc
  | _ => acc
  end.

(** ---- VARIABLES ---- *)
Definition target_step (imported : list string)
  (acc : list var_entry * definitions_t) (t : node) : list var_entry * definitions_t :=
  let '(vars, defs) := acc in
  match t with
  | Name v l _ =>
      if negb (in_set v imported)
      then (vars ++ [mk_var v l], Dict.setdefault_append v l defs)
      else acc
  | _ => acc
  end.

Definition variable_step (imported : list string)
  (acc : list var_entry * definitions_t) (n : node) : list var_entry * definitions_t :=
  match n with
  | Assign ts _ => fold_left (target_step imported) ts acc
  | _ => acc
  end.

(** ---- REFERENCE SCANNING ----  The tree provider numbers lines from 1
    up to [len(lines)], so [lines[node.lineno - 1]] is in range. *)
Definition ref_step (defs : definitions_t) (lines : list string)
  (refs : list (string * list reference)) (n : node) : list (string * list reference) :=
  match n with
  | Name x l c =>
      match Dict.lookup x defs with
      | Some ls =>
          if negb (existsb (Z.eqb l) ls) then
            Dict.setdefault_append x
              (mk_ref l c (PyStr.strip (nth (Z.to_nat (l - 1)) lines ""%string))) refs
          else refs
      | None => refs
      end
  | _ => refs
  end.

Definition scan_references (tree : node) (defs : definitions_t) (lines : list string)
  : list (string * list reference) :=
  fold_left (ref_step defs lines) (walk tree) [].

(** ---- METRICS ----  [comp] is a [defaultdict(int)]; [visit] bumps the
    counters of a node and then visits its children in order. *)
Definition bump (n : node) (comp : list (string * Z)) : list (string * Z) :=
  let c1 := match n with
            | Node KIf _ | Node KIfExp _ => Dict.dd_add "conditionals" 1 comp
            | _ => comp end in
  let c2 := match n with
            | Node KFor _ | Node KWhile _ | Node KAsyncFor _ => Dict.dd_add "loops" 1 c1
            | _ => c1 end in
  let c3 := match n with
            | Try _ hs _ _ => Dict.dd_add "exceptions" (1 + Z.of_nat (length hs)) c2
            | _ => c2 end in
  let c4 := match n with
            | Node KBoolOp _ => Dict.dd_add "boolean_ops" 1 c3
            | _ => c3 end in
  match n with
  | Node KCall _ => Dict.dd_add "function_calls" 1 c4
  | _ => c4
  end.

Fixpoint visit (n : node) (comp : list (string * Z)) : list (string * Z) :=
  let fix visit_all (l : list node) (c : list (string * Z)) : list (string * Z) :=
    match l with [] => c | x :: r => visit_all r (visit x c) end in
  let c := bump n comp in
  match n with
  | Module b => visit_all b c
  | ClassDef _ _ bs b ds => visit_all ds (visit_all b (visit_all bs c))
  | FunctionDef _ _ _ a b ds => visit_all ds (visit_all b (visit_all a c))
  | Import _ _ | ImportFrom _ _ _ | Name _ _ _ => c
  | Assign ts v => visit v (visit_all ts c)
  | Try b h o f => visit_all f (visit_all o (visit_all h (visit_all b c)))
  | Node _ cs => visit_all cs c
  end.

Definition metrics_of (comp : list (string * Z)) : metrics :=
  mk_metrics (Dict.dd_get "conditionals" comp)
             (Dict.dd_get "loops" comp)
             comp
             (1 + Dict.dd_get "conditionals" comp + Dict.dd_get "loops" comp
                + Dict.dd_get "exceptions" comp + Dict.dd_get "boolean_ops" comp).

(** The body of [analyze_python_file] after a successful parse. *)
Definition analyze_parsed (filepath : string) (body : list node) (lines : list string)
  (size_bytes : Z) : file_ok :=
  let tree := Module body in
  let '(imports, imported) := collect_imports tree in
  let '(classes, defs1) := fold_left (class_step imported) body ([], []) in
  let '(functions, defs2) := fold_left (function_step imported classes) body ([], defs1) in
  let '(variables, defs3) := fold_left (variable_step imported) body ([], defs2) in
  let refs := scan_references tree defs3 lines in
  let comp := visit tree [] in
  let unused_code : list string := [] in
  mk_file_ok
    (mk_info (PyStr.basename filepath) filepath size_bytes (Z.of_nat (length lines)))
    (mk_structure (Some imports) classes functions variables)
    (metrics_of comp)
    refs
    [("class_count"%string, Z.of_nat (length classes));
     ("method_count"%string, fold_right Z.add 0
                        (map (fun c => Z.of_nat (length (c_methods c))) classes));
     ("function_count"%string, Z.of_nat (length functions));
     ("import_count"%string, Z.of_nat (length imports));
     ("variable_count"%string, Z.of_nat (length variables));
     ("unused_count"%string, Z.of_nat (length unused_code))].

(** The registry [definitions] that [analyze_parsed] builds. *)
Definition definitions_of (body : list node) : definitions_t :=
  let imported := shadow_set (Module body) in
  let '(classes, defs1) := fold_left (class_step imported) body ([], []) in
  let '(_, defs2) := fold_left (function_step imported classes) body ([], defs1) in
  snd (fold_left (variable_step imported) body ([], defs2)).

Definition analyze_python_file (filepath : string) (p : parse_outcome) : file_analysis :=
  match p with
  | ParseError e => FA_error (PyStr.basename filepath) filepath e
  | Parsed body lines size => FA_ok (analyze_parsed filepath body lines size)
  end.

(* ------------------------------------------------------------------ *)
(** ** analyze_python_directory *)

(** Exceptions the directory code can raise. *)
Inductive py_exc := KeyError (key : string).

Inductive py_result (A : Type) := Ok (a : A) | Raise (e : py_exc).
Arguments Ok {A} a.
Arguments Raise {A} e.

Definition bind {A B} (m : py_result A) (k : A -> py_result B) : py_result B :=
  match m with Ok a => k a | Raise e => Raise e end.

Notation "x <- m ;; k" := (bind m (fun x => k)) (at level 61, m at next level, right associativity).

(** A directory as [os.walk] sees it: sub-directories and the files with
    what reading and parsing them produces. *)
Inductive fsdir := Dir (dname : string) (subdirs : list fsdir) (files : list (string * parse_outcome)).

Definition dir_name (d : fsdir) : string := let '(Dir n _ _) := d in n.

Definition ignore_dirs : list string := [".venv"; "venv"; "env"; "__pycache__"; ".git"]%string.

(** The in-place pruning of [dirs] inside the [os.walk] loop:
    [dirs[:] = [d for d in dirs if d not in ignore_dirs]] unless
    [include_imported_code], then
    [dirs[:] = [d for d in dirs if not d.lower().startswith('test')]] if
    [exclude_tests].  A sub-directory survives both filters when: *)
Definition keep_dir (include_imported_code exclude_tests : bool) (d : fsdir) : bool :=
  (include_imported_code || negb (in_set (dir_name d) ignore_dirs))
  && (negb exclude_tests || negb (PyStr.startswith "test" (PyStr.lower (dir_name d)))).

(** [os.walk(directory)], top-down: the files of a directory (with their
    [root]) come before those of its kept sub-directories, in order. *)
Fixpoint walk_files (include_imported_code exclude_tests : bool) (root : string) (d : fsdir)
  : list (string * (string * parse_outcome)) :=
  let '(Dir _ subs fs) := d in
  let fix walk_subs (l : list fsdir) :=
    match l with
    | [] => []
    | s :: r =>
        if keep_dir include_imported_code exclude_tests s
        then walk_files include_imported_code exclude_tests
               (PyStr.join root (dir_name s)) s ++ walk_subs r
        else walk_subs r
    end in
  map (fun f => (root, f)) fs ++ walk_subs subs.

(** The test-file guard as written:
    [exclude_tests and file.lower().startswith('test_') or file.lower().endswith('_test.py')]. *)
Definition skip_test_file (exclude_tests : bool) (file : string) : bool :=
  (exclude_tests && PyStr.startswith "test_" (PyStr.lower file))
  || PyStr.endswith "_test.py" (PyStr.lower file).

(** [file_result['structure'].pop('imports', None)] and
    [file_result['summary']['import_count'] = 0]. *)
Definition strip_imports (fr : file_analysis) : py_result file_analysis :=
  match fr with
  | FA_error _ _ _ => Raise (KeyError "structure")
  | FA_ok r =>
      Ok (FA_ok (mk_file_ok (fa_file_info r)
                  (mk_structure None (st_classes (fa_structure r))
                     (st_functions (fa_structure r)) (st_variables (fa_structure r)))
                  (fa_metrics r) (fa_references r)
                  (Dict.assign "import_count" 0 (fa_summary r))))
  end.

Definition summary_of (fr : file_analysis) : py_result (list (string * Z)) :=
  match fr with
  | FA_error _ _ _ => Raise (KeyError "summary")
  | FA_ok r => Ok (fa_summary r)
  end.

Record dir_state := mk_dir_state
  { ds_files : list file_analysis; ds_summary : list (string * Z) }.

(** One iteration of [for file in files]. *)
Definition process_file (include_imports exclude_tests : bool) (st : dir_state)
  (entry : string * (string * parse_outcome)) : py_result dir_state :=
  let '(root, (file, content)) := entry in
  if negb (PyStr.endswith ".py" file) then Ok st
  else if skip_test_file exclude_tests file then Ok st
  else
    let file_result := analyze_python_file (PyStr.join root file) content in
    fr <- (if negb include_imports then strip_imports file_result else Ok file_result) ;;
    summ <- summary_of fr ;;
    Ok (mk_dir_state (ds_files st ++ [fr])
          (fold_left (fun acc '(k, v) => Dict.dd_add k v acc) summ (ds_summary st))).

Fixpoint process_files (include_imports exclude_tests : bool) (st : dir_state)
  (l : list (string * (string * parse_outcome))) : py_result dir_state :=
  match l with
  | [] => Ok st
  | e :: r => st' <- process_file include_imports exclude_tests st e ;;
              process_files include_imports exclude_tests st' r
  end.

(** [sum(f['metrics'].get('complexity', 0) for f in results['files'])] *)
Fixpoint total_complexity (fs : list file_analysis) : py_result Z :=
  match fs with
  | [] => Ok 0
  | FA_error _ _ _ :: _ => Raise (KeyError "metrics")
  | FA_ok r :: rest => t <- total_complexity rest ;; Ok (mt_complexity (fa_metrics r) + t)
  end.

(** [round(total / n, 2)], given in hundredths: the exact quotient rounded
    half to even at two decimals (the float rounding of CPython agrees up to
    the binary representation of ties). *)
Definition round2_div (total n : Z) : Z :=
  let q := (100 * total) / n in
  let r := (100 * total) mod n in
  if 2 * r <? n then q
  else if n <? 2 * r then q + 1
  else if Z.even q then q else q + 1.

(** find_module_dependencies *)
Definition import_module (imp : import_entry) : string :=
  match imp with
  | ImpPlain n _ _ => n
  | ImpFrom m _ _ _ => m
  end.

Definition file_module_and_imports (f : file_analysis) : string * list import_entry :=
  match f with
  | FA_error fn _ _ => (PyStr.splitext_root fn, [])
  | FA_ok r =>
      (PyStr.splitext_root (fi_filename (fa_file_info r)),
       match st_imports (fa_structure r) with Some l => l | None => [] end)
  end.

Definition dep_step (name : string) (deps : list (string * list string)) (imp : import_entry)
  : list (string * list string) :=
  let m := PyStr.first_seg (import_module imp) in
  let cur := match Dict.lookup name deps with Some l => l | None => [] end in
  if negb (String.eqb m "") && negb (String.eqb m name) && Dict.mem m deps
     && negb (in_set m cur)
  then Dict.assign name (cur ++ [m]) deps
  else deps.

Definition find_module_dependencies (files : list file_analysis) : list (string * list string) :=
  fold_left (fun deps f =>
               let '(name, imps) := file_module_and_imports f in
               fold_left (dep_step name) imps (Dict.assign name [] deps))
            files [].

Record dir_analysis := mk_dir_analysis
  { da_directory : string;
    da_files : list file_analysis;
    da_summary : list (string * Z);
    da_avg_complexity_hundredths : Z;
    da_module_dependencies : list (string * list string) }.

Definition aggregate (directory : string) (include_imports exclude_tests : bool)
  (entries : list (string * (string * parse_outcome))) : py_result dir_analysis :=
  st <- process_files include_imports exclude_tests (mk_dir_state [] []) entries ;;
  let total_files := match length (ds_files st) with O => 1 | n => Z.of_nat n end in
  tc <- total_complexity (ds_files st) ;;
  Ok (mk_dir_analysis directory (ds_files st) (ds_summary st)
        (round2_div tc total_files) (find_module_dependencies (ds_files st))).

Definition analyze_python_directory (directory : string) (root : fsdir)
  (include_imports include_imported_code exclude_tests : bool) : py_result dir_analysis :=
  aggregate directory include_imports exclude_tests
    (walk_files include_imported_code exclude_tests directory root).

(* ------------------------------------------------------------------ *)
(** ** analyze_python_code *)

(** What [os.path.isfile] / [os.path.isdir] find at a path. *)
Inductive path_target :=
| PFile (content : parse_outcome)
| PDir (d : fsdir)
| PMissing.

Inductive analysis :=
| FileResult (f : file_analysis)
| DirResult (d : dir_analysis).

(** Exceptions seen by the callers of [analyze_python_code]. *)
Inductive entry_exc :=
| ValueError (msg : string)
| TypeError (msg : string)
| Inner (e : py_exc).

Inductive code_result (A : Type) := EOk (a : A) | ERaise (e : entry_exc).
Arguments EOk {A} a.
Arguments ERaise {A} e.

Definition analyze_python_code (path : string) (t : path_target) : code_result analysis :=
  match t with
  | PFile content =>
      if PyStr.endswith ".py" path
      then EOk (FileResult (analyze_python_file path content))
      else ERaise (ValueError ("Path must be a Python file or directory: " ++ path))
  | PDir d =>
      match analyze_python_directory path d false false false with
      | Ok r => EOk (DirResult r)
      | Raise e => ERaise (Inner e)
      end
  | PMissing => ERaise (ValueError ("Path must be a Python file or directory: " ++ path))
  end.


(* ------------------------------------------------------------------ *)
(** ** Code maps *)

(** [{'filename', 'classes', 'functions', 'variables'}]; a class is its
    name and its methods, a method or function its name and parameters. *)
Record code_map := mk_code_map
  { cm_filename : string;
    cm_classes : list (string * list (string * list string));
    cm_functions : list (string * list string);
    cm_variables : list string }.

Definition filename_of (f : file_analysis) : string :=
  match f with
  | FA_ok r => fi_filename (fa_file_info r)
  | FA_error fn _ _ => fn
  end.

(** [generate_file_code_map]: [file_result.get('structure', {})] reads as
    empty collections for the error-shaped result. *)
Definition generate_file_code_map (f : file_analysis) : code_map :=
  match f with
  | FA_ok r =>
      let st := fa_structure r in
      mk_code_map (fi_filename (fa_file_info r))
        (map (fun c => (c_name c, map (fun m => (m_name m, m_parameters m)) (c_methods c)))
             (st_classes st))
        (map (fun fe => (f_name fe, f_parameters fe)) (st_functions st))
        (map v_name (st_variables st))
  | FA_error fn _ _ => mk_code_map fn [] [] []
  end.

(** [generate_code_map]: a dict comprehension keyed by filename for a
    directory result, a one-entry dict for a file result. *)
Definition generate_code_map (res : analysis) : list (string * code_map) :=
  match res with
  | DirResult d =>
      fold_left (fun acc f => Dict.assign (filename_of f) (generate_file_code_map f) acc)
                (da_files d) []
  | FileResult f => [(filename_of f, generate_file_code_map f)]
  end.

(* ------------------------------------------------------------------ *)
(** ** cli.main *)





(* ------------------------------------------------------------------ *)
(** ** Counting nodes of a tree, as the spec words it

    The spec's counters are sums over all nodes of the tree of a weight per
    node: 1 per conditional, loop, boolean operator or call node, and
    [1 + number of handlers] per [try] block. *)

Definition sumZ (l : list Z) : Z := fold_right Z.add 0 l.

Definition count_nodes (w : node -> Z) (t : node) : Z := sumZ (map w (walk t)).

Definition w_conditional (n : node) : Z :=
  match n with Node KIf _ | Node KIfExp _ => 1 | _ => 0 end.
Definition w_loop (n : node) : Z :=
  match n with Node KFor _ | Node KWhile _ | Node KAsyncFor _ => 1 | _ => 0 end.
(** A [try] block is an [ast.Try] node; [try ... except*] (Python 3.11's
    [ast.TryStar]) is another node class, which the code does not count. *)
Definition w_exception (n : node) : Z :=
  match n with Try _ hs _ _ => 1 + Z.of_nat (length hs) | _ => 0 end.
Definition w_boolean_op (n : node) : Z :=
  match n with Node KBoolOp _ => 1 | _ => 0 end.
Definition w_call (n : node) : Z :=
  match n with Node KCall _ => 1 | _ => 0 end.

(** Sum of the values stored under key [k] in a list of pairs. *)
Definition sum_key (k : string) (l : list (string * Z)) : Z :=
  sumZ (map (fun '(k', v) => if String.eqb k k' then v else 0) l).

(** The values under key [k] of a dict of lists ([[]] when absent). *)
Definition vals {A} (k : string) (d : list (string * list A)) : list A :=
  match Dict.lookup k d with Some l => l | None => [] end.

(* ------------------------------------------------------------------ *)
(** ** Concrete inputs *)

(** The unit of the spec's scenario:
<<
class C:
  def m1(self): pass
  def m2(self): pass
def f(): return C()
v = C()
>> *)
Definition scenario_body : list node :=
  [ClassDef "C" 1 []
     [FunctionDef "m1" 2 ["self"%string] [] [Node KOther []] [];
      FunctionDef "m2" 3 ["self"%string] [] [Node KOther []] []] [];
   FunctionDef "f" 4 [] [] [Node KOther [Node KCall [Name "C" 4 16]]] [];
   Assign [Name "v" 5 0] (Node KCall [Name "C" 5 4])].

Definition scenario_lines : list string :=
  ["class C:"; "  def m1(self): pass"; "  def m2(self): pass";
   "def f(): return C()"; "v = C()"]%string.

(** [from m import f] then [def f(): pass]. *)
Definition shadowed_def_body : list node :=
  [ImportFrom 1 (Some "m"%string) [mk_alias "f" None];
   FunctionDef "f" 2 [] [] [Node KOther []] []].

(** A method [m] on line 2 and a free function [m] on line 4. *)
Definition method_and_function_body : list node :=
  [ClassDef "C" 1 [] [FunctionDef "m" 2 ["self"%string] [] [Node KOther []] []] [];
   FunctionDef "m" 4 [] [] [Node KOther []] []].

(** [import os] inside a function, then a top-level class and variable [os]. *)
Definition nested_import_body : list node :=
  [FunctionDef "g" 1 [] [] [Import 2 [mk_alias "os" None]] [];
   ClassDef "os" 3 [] [Node KOther []] [];
   Assign [Name "os" 5 0] (Node KOther [])].

(** A directory with a valid file and a file with a syntax error. *)
Definition dir_with_bad_file : fsdir :=
  Dir "proj" [] [("good.py", Parsed scenario_body scenario_lines 80);
                 ("bad.py", ParseError "invalid syntax (bad.py, line 1)")]%string.

(** A directory holding one file named [*_test.py]. *)
Definition dir_with_test_suffix : fsdir :=
  Dir "proj" [] [("foo_test.py", Parsed scenario_body scenario_lines 80)]%string.

(** [a.py] contains [import b]; [b.py] is empty. *)
Definition file_a : string * parse_outcome :=
  ("a.py", Parsed [Import 1 [mk_alias "b" None]] ["import b"] 9)%string.
Definition file_b : string * parse_outcome := ("b.py", Parsed [] [] 0)%string.

Definition dir_a_then_b : fsdir := Dir "proj" [] [file_a; file_b].
Definition dir_b_then_a : fsdir := Dir "proj" [] [file_b; file_a].

(* ------------------------------------------------------------------ *)
(** ** Auxiliary definitions used by the proofs *)

(** The weight a node adds under counter key [x]. *)
Definition w_key (x : string) (n : node) : Z :=
  (if String.eqb x "conditionals" then w_conditional n else 0)
  + (if String.eqb x "loops" then w_loop n else 0)
  + (if String.eqb x "exceptions" then w_exception n else 0)
  + (if String.eqb x "boolean_ops" then w_boolean_op n else 0)
  + (if String.eqb x "function_calls" then w_call n else 0).

Ltac destruct_lets :=
  repeat match goal with
         | |- context [let '(_, _) := ?e in _] => destruct e
         end.

(** The references a single node contributes under name [x]. *)
Definition ref_of (x : string) (defs : definitions_t) (lines : list string) (n : node)
  : list reference :=
  match n with
  | Name y l c =>
      if String.eqb x y then
        match Dict.lookup y defs with
        | Some ls => if negb (existsb (Z.eqb l) ls)
                     then [mk_ref l c (PyStr.strip (nth (Z.to_nat (l - 1)) lines ""%string))]
                     else []
        | None => []
        end
      else []
  | _ => []
  end.

(** The names a node binds as an import ([alias.asname or ...]). *)
Definition bound_names (n : node) : list string :=
  match n with
  | Import _ als => map (fun a => py_or (al_asname a) (PyStr.first_seg (al_name a))) als
  | ImportFrom _ _ als => map (fun a => py_or (al_asname a) (al_name a)) als
  | _ => []
  end.

Definition name_line (f : func_entry) : string * Z := (f_name f, f_line f).

Definition content_of (e : string * (string * parse_outcome)) : parse_outcome := snd (snd e).

Definition is_parsed (p : parse_outcome) : bool :=
  match p with Parsed _ _ _ => true | ParseError _ => false end.

(** The entries of the walk that reach [analyze_python_file]. *)
Definition selected (exclude_tests : bool) (e : string * (string * parse_outcome)) : bool :=
  let '(_, (file, _)) := e in
  PyStr.endswith ".py" file && negb (skip_test_file exclude_tests file).

(** The FileAnalysis appended for a selected, parseable entry. *)
Definition entry_result (include_imports : bool) (e : string * (string * parse_outcome))
  : file_analysis :=
  let '(root, (file, content)) := e in
  let fr := analyze_python_file (PyStr.join root file) content in
  if negb include_imports
  then match strip_imports fr with Ok f => f | Raise _ => fr end
  else fr.

Definition summary_value (f : file_analysis) : list (string * Z) :=
  match f with FA_ok r => fa_summary r | FA_error _ _ _ => [] end.

Definition complexity_value (f : file_analysis) : Z :=
  match f with FA_ok r => mt_complexity (fa_metrics r) | FA_error _ _ _ => 0 end.

Definition entry_files ii et e : list file_analysis :=
  if selected et e then [entry_result ii e] else [].

Definition entry_contrib ii et (k : string) e : Z :=
  if selected et e then sum_key k (summary_value (entry_result ii e)) else 0.

Definition entry_complexity ii et e : Z :=
  if selected et e then complexity_value (entry_result ii e) else 0.

Definition fold_summary (summ : list (string * Z)) (d : list (string * Z)) :=
  fold_left (fun acc '(k, v) => Dict.dd_add k v acc) summ d.

(** A FileAnalysis whose imports were popped and whose [import_count] is 0. *)
Definition stripped (f : file_analysis) : Prop :=
  exists o, f = FA_ok o /\ st_imports (fa_structure o) = None
            /\ Dict.lookup "import_count" (fa_summary o) = Some 0.

Definition dep_file_step (deps : list (string * list string)) (f : file_analysis) :=
  let '(name, imps) := file_module_and_imports f in
  fold_left (dep_step name) imps (Dict.assign name [] deps).

(** The number of aliases an import node lists. *)
Definition w_import_aliases (n : node) : Z :=
  match n with
  | Import _ als | ImportFrom _ _ als => Z.of_nat (length als)
  | _ => 0
  end.

(** What [include_imports] leaves untouched in a FileAnalysis. *)
Definition file_view (f : file_analysis)
  : option (file_info * list class_entry * list func_entry * list var_entry * metrics
            * list (string * list reference)) :=
  match f with
  | FA_ok o => Some (fa_file_info o, st_classes (fa_structure o), st_functions (fa_structure o),
                     st_variables (fa_structure o), fa_metrics o, fa_references o)
  | FA_error _ _ _ => None
  end.

(** The last FileAnalysis of a list whose filename is [fn]. *)
Definition last_file_named (fn : string) (fs : list file_analysis) : option file_analysis :=
  find (fun f => String.eqb (filename_of f) fn) (rev fs).

Definition defs_grow {E} (step : list E * definitions_t -> node -> list E * definitions_t) :=
  forall acc n x l, In l (vals x (snd acc)) -> In l (vals x (snd (step acc n))).

Definition class_registered (defs : definitions_t) (c : class_entry) : Prop :=
  In (c_line_start c) (vals (c_name c) defs)
  /\ Forall (fun m => In (m_line m) (vals (m_name m) defs)) (c_methods c).

Definition counter_keys : list string :=
  ["conditionals"; "loops"; "exceptions"; "boolean_ops"; "function_calls"]%string.

Definition comp_inv (d : list (string * Z)) : Prop :=
  NoDup (map fst d) /\ Forall (fun p => In (fst p) counter_keys /\ 0 < snd p) d.

Definition ref_inv (defs : definitions_t) (p : string * list reference) : Prop :=
  Dict.mem (fst p) defs = true /\ snd p <> [].

Definition file_ok_ge1 (f : file_analysis) : Prop :=
  exists o, f = FA_ok o /\ 1 <= mt_complexity (fa_metrics o).

(** The invariant of the dependency map built so far. *)
Definition deps_wf (deps : list (string * list string)) : Prop :=
  forall n ms, Dict.lookup n deps = Some ms ->
    ~ In n ms /\ ~ In ""%string ms /\ NoDup ms /\ Forall (fun m => Dict.mem m deps = true) ms.

(** Every edge comes from an import of a file carrying the source module name. *)
Definition deps_sound (fs : list file_analysis) (deps : list (string * list string)) : Prop :=
  forall n ms m, Dict.lookup n deps = Some ms -> In m ms ->
    exists f imp, In f fs /\ fst (file_module_and_imports f) = n
                  /\ In imp (snd (file_module_and_imports f))
                  /\ PyStr.first_seg (import_module imp) = m.

(* ================================================================== *)
(** * Proofs *)

(** ** Dicts *)

Lemma lookup_assign {A} (k x : string) (v : A) d :
  Dict.lookup x (Dict.assign k v d) =
  if String.eqb x k then Some v else Dict.lookup x d.
Proof.
  induction d as [|[k' v'] r IH]; simpl.
  - destruct (String.eqb x k); reflexivity.
  - destruct (String.eqb k k') eqn:E1; simpl.
    + apply String.eqb_eq in E1; subst k'.
      destruct (String.eqb x k); reflexivity.
    + rewrite IH. destruct (String.eqb x k') eqn:E2; [|reflexivity].
      apply String.eqb_eq in E2; subst k'.
      destruct (String.eqb x k) eqn:E3; [|reflexivity].
      apply String.eqb_eq in E3; subst. rewrite String.eqb_refl in E1; discriminate.
Qed.

Lemma lookup_app_new {A} (k x : string) (v : A) d :
  Dict.lookup k d = None ->
  Dict.lookup x (d ++ [(k, v)]) = if String.eqb x k then Some v else Dict.lookup x d.
Proof.
  intros Hk. induction d as [|[k' v'] r IH]; simpl in *.
  - destruct (String.eqb x k); reflexivity.
  - destruct (String.eqb k k') eqn:E1; [discriminate|].
    destruct (String.eqb x k') eqn:E2; [|apply IH; exact Hk].
    apply String.eqb_eq in E2; subst x.
    destruct (String.eqb k' k) eqn:E3; [|reflexivity].
    apply String.eqb_eq in E3; subst. rewrite String.eqb_refl in E1; discriminate.
Qed.

Lemma vals_setdefault_append {A} (k x : string) (v : A) d :
  vals x (Dict.setdefault_append k v d) =
  if String.eqb x k then vals x d ++ [v] else vals x d.
Proof.
  unfold vals, Dict.setdefault_append.
  destruct (Dict.lookup k d) as [l|] eqn:Hk.
  - rewrite lookup_assign. destruct (String.eqb x k) eqn:E; [|reflexivity].
    apply String.eqb_eq in E; subst. rewrite Hk. reflexivity.
  - rewrite lookup_app_new by exact Hk. destruct (String.eqb x k) eqn:E; [|reflexivity].
    apply String.eqb_eq in E; subst. rewrite Hk. reflexivity.
Qed.

Lemma lookup_setdefault_append_some {A} (k x : string) (v : A) d :
  Dict.lookup x d <> None -> Dict.lookup x (Dict.setdefault_append k v d) <> None.
Proof.
  unfold Dict.setdefault_append. intros H.
  destruct (Dict.lookup k d) eqn:Hk.
  - rewrite lookup_assign. destruct (String.eqb x k); congruence.
  - rewrite lookup_app_new by exact Hk. destruct (String.eqb x k); congruence.
Qed.

Lemma dd_get_dd_add (k x : string) v d :
  Dict.dd_get x (Dict.dd_add k v d) =
  if String.eqb x k then Dict.dd_get x d + v else Dict.dd_get x d.
Proof.
  unfold Dict.dd_add, Dict.dd_get at 1. rewrite lookup_assign.
  destruct (String.eqb x k) eqn:E; [|reflexivity].
  apply String.eqb_eq in E; subst. reflexivity.
Qed.

Lemma dd_get_fold_add (summ : list (string * Z)) d x :
  Dict.dd_get x (fold_left (fun acc '(k, v) => Dict.dd_add k v acc) summ d) =
  Dict.dd_get x d + sum_key x summ.
Proof.
  revert d. induction summ as [|[k v] r IH]; intros d; simpl.
  - unfold sum_key; simpl. lia.
  - rewrite IH, dd_get_dd_add. unfold sum_key; simpl.
    destruct (String.eqb x k); lia.
Qed.

Lemma in_set_true x s : in_set x s = true <-> In x s.
Proof.
  unfold in_set. rewrite existsb_exists. split.
  - intros (y & Hy & E). apply String.eqb_eq in E. subst. exact Hy.
  - intros H. exists x. split; [exact H | apply String.eqb_refl].
Qed.

Lemma in_set_false x s : in_set x s = false <-> ~ In x s.
Proof.
  rewrite <- in_set_true. destruct (in_set x s); split; congruence.
Qed.

(** ** Sums *)

Lemma sumZ_app l1 l2 : sumZ (l1 ++ l2) = sumZ l1 + sumZ l2.
Proof. induction l1; simpl; [reflexivity | unfold sumZ in *; simpl; lia]. Qed.

Lemma sumZ_perm l1 l2 : Permutation l1 l2 -> sumZ l1 = sumZ l2.
Proof. induction 1; unfold sumZ in *; simpl; lia. Qed.

(** ** [ast.walk] *)

Lemma perm_zip_app {A} (a b : list (list A)) :
  Permutation (concat (zip_app a b)) (concat a ++ concat b).
Proof.
  revert b. induction a as [|x a IH]; intros [|y b]; simpl.
  - reflexivity.
  - reflexivity.
  - rewrite app_nil_r. reflexivity.
  - rewrite <- !app_assoc. apply Permutation_app_head.
    rewrite IH. apply Permutation_app_swap_app.
Qed.

Lemma perm_merge_levels {A} (ls : list (list (list A))) :
  Permutation (concat (merge_levels ls)) (concat (concat ls)).
Proof.
  induction ls as [|x ls IH]; simpl; [reflexivity|].
  rewrite perm_zip_app, concat_app. apply Permutation_app_head, IH.
Qed.

Lemma levels_eq t : levels t = [t] :: merge_levels (map levels (children t)).
Proof.
  assert (H : forall l, (fix lv (l : list node) : list (list (list node)) :=
                           match l with [] => [] | x :: r => levels x :: lv r end) l
                        = map levels l)
    by (induction l as [|x l IH]; simpl; [reflexivity | rewrite IH; reflexivity]).
  destruct t; simpl; rewrite ?H, ?map_app; reflexivity.
Qed.

Lemma walk_perm t : Permutation (walk t) (t :: concat (map walk (children t))).
Proof.
  unfold walk at 1. rewrite levels_eq. simpl. apply perm_skip.
  rewrite perm_merge_levels.
  induction (children t) as [|c cs IH]; simpl; [reflexivity|].
  rewrite concat_app. apply Permutation_app_head, IH.
Qed.

Lemma in_walk t s : In s (walk t) <-> occurs s t.
Proof.
  revert s. induction t as [t IH] using node_rect_children. intros s.
  assert (Hiff : In s (walk t) <-> In s (t :: concat (map walk (children t))))
    by (split; apply Permutation_in; [|symmetry]; apply walk_perm).
  rewrite Hiff. simpl. split.
  - intros [E | Hin]; [subst; constructor|].
    apply in_concat in Hin as (w & Hw & Hs). apply in_map_iff in Hw as (c & <- & Hc).
    apply (occurs_child s t c Hc). rewrite Forall_forall in IH. apply IH; assumption.
  - intros Ho. inversion Ho as [|t' c Hc Hoc]; subst; [left; reflexivity|right].
    apply in_concat. exists (walk c). split; [apply in_map; exact Hc|].
    rewrite Forall_forall in IH. apply IH; assumption.
Qed.

Lemma count_nodes_eq w t :
  count_nodes w t = w t + sumZ (map (count_nodes w) (children t)).
Proof.
  unfold count_nodes at 1. rewrite (sumZ_perm _ _ (Permutation_map w (walk_perm t))).
  simpl. f_equal. induction (children t) as [|c cs IH]; simpl; [reflexivity|].
  rewrite map_app, sumZ_app, IH. reflexivity.
Qed.

(** ** Metrics *)

Lemma bump_get x n c : Dict.dd_get x (bump n c) = Dict.dd_get x c + w_key x n.
Proof.
  unfold w_key.
  destruct n as [| | | | | | | |k cs]; try destruct k; cbn [bump];
    rewrite ?dd_get_dd_add;
    repeat match goal with
           | |- context [String.eqb x ?s] => destruct (String.eqb_spec x s); subst
           end; simpl; lia.
Qed.

Lemma visit_unfold t c :
  visit t c = fold_left (fun c x => visit x c) (children t) (bump t c).
Proof.
  assert (H : forall l c,
    (fix visit_all (l : list node) (c : list (string * Z)) : list (string * Z) :=
       match l with [] => c | x :: r => visit_all r (visit x c) end) l c
    = fold_left (fun c x => visit x c) l c)
    by (induction l as [|y l IH]; intros c'; simpl; [reflexivity | apply IH]).
  destruct t; simpl; rewrite ?H, ?fold_left_app; reflexivity.
Qed.

Lemma visit_get x t c :
  Dict.dd_get x (visit t c) = Dict.dd_get x c + count_nodes (w_key x) t.
Proof.
  revert c. induction t as [t IH] using node_rect_children. intros c.
  rewrite visit_unfold, count_nodes_eq.
  assert (Hl : forall l c, Forall (fun t => forall c,
                 Dict.dd_get x (visit t c) = Dict.dd_get x c + count_nodes (w_key x) t) l ->
               Dict.dd_get x (fold_left (fun c x => visit x c) l c)
               = Dict.dd_get x c + sumZ (map (count_nodes (w_key x)) l)).
  { induction l as [|y l IHl]; intros c' Hf; simpl; [lia|].
    inversion Hf as [|? ? Hy Hr]; subst. rewrite IHl by exact Hr. rewrite Hy. lia. }
  rewrite Hl by exact IH. rewrite bump_get. lia.
Qed.

Lemma count_w_key x w t :
  (forall n, w_key x n = w n) -> count_nodes (w_key x) t = count_nodes w t.
Proof. intros H. unfold count_nodes. f_equal. apply map_ext. exact H. Qed.

Lemma analyze_parsed_metrics p body lines size :
  fa_metrics (analyze_parsed p body lines size) = metrics_of (visit (Module body) []).
Proof.
  unfold analyze_parsed.
  repeat match goal with
         | |- context [let '(_, _) := ?e in _] => destruct e
         end; reflexivity.
Qed.

(** C4: the reported [complexity] of every analyzed unit is exactly
    [1 + conditionals + loops + exceptions + boolean_ops], where each counter
    is the spec's count over all nodes of the tree (a [try] block with N
    handlers weighs [1 + N] in [exceptions]); the [function_calls] counter is
    reported in [detailed_complexity] and is not part of the score. *)
Theorem complexity_formula p body lines size :
  let m := fa_metrics (analyze_parsed p body lines size) in
  let t := Module body in
  mt_complexity m = 1 + count_nodes w_conditional t + count_nodes w_loop t
                      + count_nodes w_exception t + count_nodes w_boolean_op t
  /\ Dict.dd_get "conditionals" (mt_detailed_complexity m) = count_nodes w_conditional t
  /\ Dict.dd_get "loops" (mt_detailed_complexity m) = count_nodes w_loop t
  /\ Dict.dd_get "exceptions" (mt_detailed_complexity m) = count_nodes w_exception t
  /\ Dict.dd_get "boolean_ops" (mt_detailed_complexity m) = count_nodes w_boolean_op t
  /\ Dict.dd_get "function_calls" (mt_detailed_complexity m) = count_nodes w_call t.
Proof.
  cbn zeta. rewrite analyze_parsed_metrics. unfold metrics_of; cbn [mt_complexity mt_detailed_complexity].
  rewrite !visit_get.
  rewrite (count_w_key "conditionals" w_conditional) by (intros n; unfold w_key; simpl; lia).
  rewrite (count_w_key "loops" w_loop) by (intros n; unfold w_key; simpl; lia).
  rewrite (count_w_key "exceptions" w_exception) by (intros n; unfold w_key; simpl; lia).
  rewrite (count_w_key "boolean_ops" w_boolean_op) by (intros n; unfold w_key; simpl; lia).
  rewrite (count_w_key "function_calls" w_call) by (intros n; unfold w_key; simpl; lia).
  unfold Dict.dd_get at 1 2 3 4 5 6 7 8 9; simpl. repeat split; lia.
Qed.

(** ** Reference scanning *)

Lemma analyze_parsed_refs p body lines size :
  fa_references (analyze_parsed p body lines size)
  = scan_references (Module body) (definitions_of body) lines.
Proof.
  unfold analyze_parsed, definitions_of, shadow_set.
  destruct (collect_imports (Module body)) as [imports imported]; simpl.
  destruct_lets; reflexivity.
Qed.

Lemma vals_scan x defs lines l acc :
  vals x (fold_left (ref_step defs lines) l acc)
  = vals x acc ++ flat_map (ref_of x defs lines) l.
Proof.
  revert acc. induction l as [|n l IH]; intros acc; simpl; [rewrite app_nil_r; reflexivity|].
  rewrite IH, app_assoc. f_equal.
  unfold ref_step, ref_of.
  destruct n as [| | | | | |y ln c| |];
    cbn -[Dict.lookup Dict.setdefault_append vals existsb];
    try (rewrite app_nil_r; reflexivity).
  destruct (Dict.lookup y defs) as [ls|] eqn:Hd.
  - destruct (negb (existsb (Z.eqb ln) ls)) eqn:Hn.
    + rewrite vals_setdefault_append.
      destruct (String.eqb x y) eqn:E; [|rewrite app_nil_r; reflexivity].
      apply String.eqb_eq in E; subst. rewrite ?Hn. reflexivity.
    + destruct (String.eqb x y) eqn:E; [|rewrite app_nil_r; reflexivity].
      apply String.eqb_eq in E; subst. rewrite ?Hn, app_nil_r. reflexivity.
  - destruct (String.eqb x y) eqn:E; [|rewrite app_nil_r; reflexivity].
    apply String.eqb_eq in E; subst. rewrite app_nil_r. reflexivity.
Qed.

Lemma existsb_Zeqb l ls : existsb (Z.eqb l) ls = true <-> In l ls.
Proof.
  rewrite existsb_exists. split.
  - intros (y & Hy & E). apply Z.eqb_eq in E. subst. exact Hy.
  - intros H. exists l. split; [exact H | apply Z.eqb_refl].
Qed.

(** C5: for a registered declaration name [x] with definition lines [ls],
    the position-based scanner records a reference at line [l], column [c]
    exactly when a [Name] node [x] occurs at that position anywhere in the
    tree and [l] is not one of [ls]; its context is the stripped text of
    line [l].  So a declaration site never counts as a reference to itself. *)
Theorem reference_iff_not_definition_line p body lines size x ls
  (Hdef : Dict.lookup x (definitions_of body) = Some ls) :
  forall l c ctx,
    In (mk_ref l c ctx) (vals x (fa_references (analyze_parsed p body lines size)))
    <-> occurs (Name x l c) (Module body) /\ ~ In l ls
        /\ ctx = PyStr.strip (nth (Z.to_nat (l - 1)) lines ""%string).
Proof.
  intros l c ctx.
  rewrite analyze_parsed_refs. unfold scan_references. rewrite vals_scan.
  change (vals x []) with (@nil reference). rewrite app_nil_l.
  rewrite <- in_walk, in_flat_map. split.
  - intros (n & Hn & Hr).
    destruct n as [| | | | | |y ln c'| |]; simpl in Hr; try contradiction.
    destruct (String.eqb x y) eqn:E; [|contradiction].
    apply String.eqb_eq in E; subst y. rewrite Hdef in Hr.
    destruct (existsb (Z.eqb ln) ls) eqn:Hex; simpl in Hr; [contradiction|].
    destruct Hr as [Hr|[]]. injection Hr as <- <- <-.
    split; [exact Hn|]. split; [|reflexivity].
    intros Hin. apply existsb_Zeqb in Hin. congruence.
  - intros (Hn & Hl & ->). exists (Name x l c). split; [exact Hn|].
    simpl. rewrite String.eqb_refl, Hdef.
    destruct (existsb (Z.eqb l) ls) eqn:Hex.
    + apply existsb_Zeqb in Hex. contradiction.
    + simpl. left. reflexivity.
Qed.

(** ** Declaration extraction *)

Lemma analyze_parsed_structure p body lines size :
  let st := fa_structure (analyze_parsed p body lines size) in
  let im := shadow_set (Module body) in
  let fc := fold_left (class_step im) body ([], []) in
  let ff := fold_left (function_step im (fst fc)) body ([], snd fc) in
  st_imports st = Some (fst (collect_imports (Module body)))
  /\ st_classes st = fst fc
  /\ st_functions st = fst ff
  /\ st_variables st = fst (fold_left (variable_step im) body ([], snd ff)).
Proof.
  cbn zeta. unfold analyze_parsed, shadow_set.
  destruct (collect_imports (Module body)) as [imports imported]; cbn [fst snd].
  repeat (match goal with
          | |- context [let '(_, _) := ?e in _] => destruct e
          end; cbn [fst snd]).
  cbn. repeat split.
Qed.

Lemma class_step_names im body acc :
  Forall (fun c => ~ In (c_name c) im) (fst acc) ->
  Forall (fun c => ~ In (c_name c) im) (fst (fold_left (class_step im) body acc)).
Proof.
  revert acc. induction body as [|n body IH]; intros [cls defs] H; simpl; [exact H|].
  apply IH. destruct n; simpl; try exact H.
  destruct (in_set name im) eqn:E; simpl; [exact H|].
  apply Forall_app. split; [exact H|]. constructor; [|constructor].
  simpl. apply in_set_false. exact E.
Qed.

Lemma function_step_names im classes body acc :
  Forall (fun f => ~ In (f_name f) im) (fst acc) ->
  Forall (fun f => ~ In (f_name f) im) (fst (fold_left (function_step im classes) body acc)).
Proof.
  revert acc. induction body as [|n body IH]; intros [fs defs] H; simpl; [exact H|].
  apply IH. destruct n; simpl; try exact H.
  destruct (in_set name im) eqn:E; simpl; [exact H|].
  destruct (is_method classes name lineno); simpl; [exact H|].
  apply Forall_app. split; [exact H|]. constructor; [|constructor].
  simpl. apply in_set_false. exact E.
Qed.

Lemma variable_step_names im body acc :
  Forall (fun v => ~ In (v_name v) im) (fst acc) ->
  Forall (fun v => ~ In (v_name v) im) (fst (fold_left (variable_step im) body acc)).
Proof.
  assert (Ht : forall ts acc,
    Forall (fun v => ~ In (v_name v) im) (fst acc) ->
    Forall (fun v => ~ In (v_name v) im) (fst (fold_left (target_step im) ts acc))).
  { induction ts as [|t ts IH]; intros [vs defs] H; simpl; [exact H|].
    apply IH. destruct t; simpl; try exact H.
    destruct (in_set id im) eqn:E; simpl; [exact H|].
    apply Forall_app. split; [exact H|]. constructor; [|constructor].
    simpl. apply in_set_false. exact E. }
  revert acc. induction body as [|n body IH]; intros acc H; simpl; [exact H|].
  apply IH. destruct n; simpl; try exact H. apply Ht. exact H.
Qed.

(** Every extracted class, function and variable has a name outside the
    shadow set. *)
Lemma extracted_names_not_shadowed p body lines size :
  let st := fa_structure (analyze_parsed p body lines size) in
  let im := shadow_set (Module body) in
  Forall (fun c => ~ In (c_name c) im) (st_classes st)
  /\ Forall (fun f => ~ In (f_name f) im) (st_functions st)
  /\ Forall (fun v => ~ In (v_name v) im) (st_variables st).
Proof.
  cbn zeta. destruct (analyze_parsed_structure p body lines size) as (_ & Hc & Hf & Hv).
  rewrite Hc, Hf, Hv.
  split; [|split].
  - apply class_step_names. constructor.
  - apply function_step_names. constructor.
  - apply variable_step_names. constructor.
Qed.

(** C6: a name of the shadow set (bound by an import) never appears as the
    name of an entry of the classes, functions or variables collections. *)
Theorem shadowed_names_not_declared p body lines size :
  let st := fa_structure (analyze_parsed p body lines size) in
  let im := shadow_set (Module body) in
  Forall (fun x => ~ In x (map c_name (st_classes st))
                   /\ ~ In x (map f_name (st_functions st))
                   /\ ~ In x (map v_name (st_variables st))) im.
Proof.
  cbn zeta. destruct (extracted_names_not_shadowed p body lines size) as (Hc & Hf & Hv).
  apply Forall_forall. intros x Hx.
  rewrite Forall_forall in Hc, Hf, Hv.
  split; [|split]; intros Hin; apply in_map_iff in Hin as (e & He & Hin).
  - apply (Hc e Hin). rewrite He. exact Hx.
  - apply (Hf e Hin). rewrite He. exact Hx.
  - apply (Hv e Hin). rewrite He. exact Hx.
Qed.

(** ** The shadow set collects the imports of the whole tree *)

Lemma snd_fold_aliases {E} (f : alias -> E) (g : alias -> string) als es im :
  snd (fold_left (fun '(es, im) a => (es ++ [f a], im ++ [g a])) als (es, im))
  = im ++ map g als.
Proof.
  revert es im. induction als as [|a als IH]; intros es im; simpl.
  - rewrite app_nil_r. reflexivity.
  - rewrite IH, <- app_assoc. reflexivity.
Qed.

Lemma snd_import_step acc n : snd (import_step acc n) = snd acc ++ bound_names n.
Proof.
  destruct acc as [es im]. destruct n; simpl; try (rewrite app_nil_r; reflexivity).
  - apply (snd_fold_aliases (fun a => ImpPlain (al_name a) (al_asname a) lineno)).
  - apply (snd_fold_aliases (fun a => ImpFrom (py_or module "") (al_name a) (al_asname a) lineno)).
Qed.

Lemma shadow_set_eq t : shadow_set t = flat_map bound_names (walk t).
Proof.
  unfold shadow_set, collect_imports.
  assert (H : forall l acc, snd (fold_left import_step l acc) = snd acc ++ flat_map bound_names l).
  { induction l as [|n l IH]; intros acc; simpl; [rewrite app_nil_r; reflexivity|].
    rewrite IH, snd_import_step, app_assoc. reflexivity. }
  rewrite H. reflexivity.
Qed.

Lemma bound_name_in_shadow_set t n x :
  occurs n t -> In x (bound_names n) -> In x (shadow_set t).
Proof.
  intros Ho Hx. rewrite shadow_set_eq. apply in_flat_map.
  exists n. split; [apply in_walk; exact Ho | exact Hx].
Qed.

(** C10: an import at any depth (e.g. inside a function, method or class
    body) binds names that no extracted top-level class, function or
    variable carries. *)
Theorem nested_import_shadows p body lines size n x :
  occurs n (Module body) -> In x (bound_names n) ->
  let st := fa_structure (analyze_parsed p body lines size) in
  ~ In x (map c_name (st_classes st))
  /\ ~ In x (map f_name (st_functions st))
  /\ ~ In x (map v_name (st_variables st)).
Proof.
  intros Ho Hx. cbn zeta.
  pose proof (bound_name_in_shadow_set _ _ _ Ho Hx) as Hs.
  destruct (extracted_names_not_shadowed p body lines size) as (Hc & Hf & Hv).
  rewrite Forall_forall in Hc, Hf, Hv.
  split; [|split]; intros Hin; apply in_map_iff in Hin as (e & He & Hin); subst x.
  - exact (Hc e Hin Hs).
  - exact (Hf e Hin Hs).
  - exact (Hv e Hin Hs).
Qed.

(** ** Method/function deduplication *)

Lemma function_fold_members im cls body acc n l :
  In (n, l) (map name_line (fst (fold_left (function_step im cls) body acc)))
  <-> In (n, l) (map name_line (fst acc))
      \/ exists ps a b ds, In (FunctionDef n l ps a b ds) body
                           /\ in_set n im = false /\ is_method cls n l = false.
Proof.
  revert acc. induction body as [|x body IH]; intros [fs defs]; simpl.
  - split; [tauto|]. intros [H|(ps & a & b & ds & [] & _)]. exact H.
  - rewrite IH. simpl. split.
    + intros [H|(ps & a & b & ds & Hin & H1 & H2)].
      * destruct x; simpl in H; try tauto.
        destruct (in_set name im) eqn:E1; simpl in H; [tauto|].
        destruct (is_method cls name lineno) eqn:E2; simpl in H; [tauto|].
        rewrite map_app, in_app_iff in H. destruct H as [H|[H|[]]]; [tauto|].
        unfold name_line in H; simpl in H. injection H as <- <-.
        right. exists params, argnodes, body0, decorators. auto.
      * right. exists ps, a, b, ds. auto.
    + intros [H|(ps & a & b & ds & [Hx|Hin] & H1 & H2)].
      * left. destruct x; simpl; try exact H.
        destruct (in_set name im); simpl; [exact H|].
        destruct (is_method cls name lineno); simpl; [exact H|].
        rewrite map_app, in_app_iff. left. exact H.
      * subst x. left. simpl. rewrite H1, H2. simpl.
        rewrite map_app, in_app_iff. right. left. reflexivity.
      * right. exists ps, a, b, ds. auto.
Qed.

Lemma is_method_spec cls n l :
  is_method cls n l = true
  <-> exists c m, In c cls /\ In m (c_methods c) /\ m_name m = n /\ m_line m = l.
Proof.
  unfold is_method. rewrite existsb_exists. split.
  - intros (c & Hc & Hm). apply existsb_exists in Hm as (m & Hm & E).
    apply andb_true_iff in E as [E1 E2].
    apply String.eqb_eq in E1. apply Z.eqb_eq in E2. eauto 6.
  - intros (c & m & Hc & Hm & <- & <-). exists c. split; [exact Hc|].
    apply existsb_exists. exists m. split; [exact Hm|].
    rewrite String.eqb_refl, Z.eqb_refl. reflexivity.
Qed.

(** C7 (amended): a top-level [def] whose name is outside the shadow set
    appears in the functions collection (by name and line) exactly when no
    extracted class has a method with the same name and the same line. *)
Theorem function_dedup_by_name_and_line p body lines size n l ps a b ds :
  In (FunctionDef n l ps a b ds) body ->
  ~ In n (shadow_set (Module body)) ->
  let st := fa_structure (analyze_parsed p body lines size) in
  In (n, l) (map name_line (st_functions st))
  <-> ~ exists c m, In c (st_classes st) /\ In m (c_methods c)
                    /\ m_name m = n /\ m_line m = l.
Proof.
  intros Hin Hns. cbn zeta.
  destruct (analyze_parsed_structure p body lines size) as (_ & Hc & Hf & _).
  rewrite Hf, Hc, function_fold_members. simpl. rewrite <- is_method_spec. split.
  - intros [[]|(ps' & a' & b' & ds' & _ & _ & H)]. rewrite H. discriminate.
  - intros H. right. exists ps, a, b, ds. split; [exact Hin|]. split.
    + apply in_set_false. exact Hns.
    + destruct (is_method _ n l); [contradiction H; reflexivity | reflexivity].
Qed.

(** ** Directory aggregation *)

Lemma process_file_skipped ii et st e :
  selected et e = false -> process_file ii et st e = Ok st.
Proof.
  destruct e as [root [file content]]. unfold selected, process_file. intros H.
  destruct (PyStr.endswith ".py" file); simpl in *; [|reflexivity].
  destruct (skip_test_file et file); [reflexivity | discriminate].
Qed.

Lemma process_file_selected ii et st e :
  selected et e = true -> is_parsed (content_of e) = true ->
  process_file ii et st e
  = Ok (mk_dir_state (ds_files st ++ [entry_result ii e])
          (fold_summary (summary_value (entry_result ii e)) (ds_summary st)))
  /\ exists r, entry_result ii e = FA_ok r.
Proof.
  destruct e as [root [file content]]. unfold selected, process_file, content_of. simpl.
  intros H Hp. apply andb_true_iff in H as [H1 H2]. rewrite H1. simpl.
  apply negb_true_iff in H2. rewrite H2.
  destruct content as [b l s|m]; [|discriminate]. unfold entry_result. simpl.
  destruct ii; simpl; eauto.
Qed.

Lemma process_files_parsed ii et l :
  Forall (fun e => selected et e = true -> is_parsed (content_of e) = true) l ->
  forall st, exists summ,
    process_files ii et st l = Ok (mk_dir_state (ds_files st ++ flat_map (entry_files ii et) l) summ)
    /\ forall k, Dict.dd_get k summ
                 = Dict.dd_get k (ds_summary st) + sumZ (map (entry_contrib ii et k) l).
Proof.
  induction l as [|e l IH]; intros Hall st; simpl.
  - exists (ds_summary st). rewrite app_nil_r. destruct st; split; [reflexivity|]. intros k; simpl; lia.
  - inversion Hall as [|? ? He Hl]; subst.
    destruct (selected et e) eqn:Hs.
    + destruct (process_file_selected ii et st e Hs (He eq_refl)) as [Hp _]. rewrite Hp. simpl.
      destruct (IH Hl (mk_dir_state (ds_files st ++ [entry_result ii e])
                        (fold_summary (summary_value (entry_result ii e)) (ds_summary st))))
        as (summ & Hr & Hk).
      exists summ. rewrite Hr. unfold entry_files; rewrite ?Hs; simpl.
      rewrite <- app_assoc. split; [reflexivity|].
      intros k. rewrite Hk. simpl. unfold fold_summary. rewrite dd_get_fold_add.
      unfold entry_contrib; rewrite ?Hs; lia.
    + rewrite process_file_skipped by exact Hs. simpl.
      destruct (IH Hl st) as (summ & Hr & Hk). exists summ.
      unfold entry_files; rewrite ?Hs; simpl. split; [exact Hr|].
      intros k. rewrite Hk. unfold entry_contrib; rewrite ?Hs; lia.
Qed.

Lemma total_complexity_parsed ii et l :
  Forall (fun e => selected et e = true -> is_parsed (content_of e) = true) l ->
  total_complexity (flat_map (entry_files ii et) l) = Ok (sumZ (map (entry_complexity ii et) l)).
Proof.
  induction l as [|e l IH]; intros Hall; simpl; [reflexivity|].
  inversion Hall as [|? ? He Hl]; subst.
  unfold entry_files at 1, entry_complexity at 1. destruct (selected et e) eqn:Hs.
  - destruct (process_file_selected ii et (mk_dir_state [] []) e Hs (He eq_refl)) as [_ [r Hr]].
    rewrite Hr. simpl. rewrite (IH Hl). reflexivity.
  - simpl. rewrite (IH Hl). reflexivity.
Qed.

Lemma perm_flat_map {A B} (f : A -> list B) l1 l2 :
  Permutation l1 l2 -> Permutation (flat_map f l1) (flat_map f l2).
Proof.
  induction 1; simpl.
  - reflexivity.
  - apply Permutation_app_head. assumption.
  - rewrite !app_assoc. apply Permutation_app_tail, Permutation_app_comm.
  - etransitivity; eassumption.
Qed.

Lemma aggregate_parsed dir ii et l :
  Forall (fun e => selected et e = true -> is_parsed (content_of e) = true) l ->
  exists r, aggregate dir ii et l = Ok r
    /\ (forall k, Dict.dd_get k (da_summary r) = sumZ (map (entry_contrib ii et k) l))
    /\ da_avg_complexity_hundredths r
       = round2_div (sumZ (map (entry_complexity ii et) l))
           (match length (flat_map (entry_files ii et) l) with
            | O => 1 | n => Z.of_nat n end).
Proof.
  intros Hall. unfold aggregate.
  destruct (process_files_parsed ii et l Hall (mk_dir_state [] [])) as (summ & Hp & Hk).
  rewrite Hp. simpl. rewrite (total_complexity_parsed ii et l Hall). simpl.
  eexists. split; [reflexivity|]. split; [|reflexivity].
  intros k. simpl. rewrite Hk. reflexivity.
Qed.

(** C8: the totals do not depend on the order in which files are analyzed:
    two walks that list the same entries in different orders, with every
    analyzed file parseable, give the same count under every summary key and
    the same [avg_complexity]. *)
Theorem aggregation_order_independent directory root1 root2 ii ic et :
  Permutation (walk_files ic et directory root1) (walk_files ic et directory root2) ->
  Forall (fun e => selected et e = true -> is_parsed (content_of e) = true)
         (walk_files ic et directory root1) ->
  exists r1 r2,
    analyze_python_directory directory root1 ii ic et = Ok r1
    /\ analyze_python_directory directory root2 ii ic et = Ok r2
    /\ (forall k, Dict.dd_get k (da_summary r1) = Dict.dd_get k (da_summary r2))
    /\ da_avg_complexity_hundredths r1 = da_avg_complexity_hundredths r2.
Proof.
  unfold analyze_python_directory.
  set (l1 := walk_files ic et directory root1). set (l2 := walk_files ic et directory root2).
  intros Hperm Hall1.
  assert (Hall2 : Forall (fun e => selected et e = true -> is_parsed (content_of e) = true) l2).
  { rewrite Forall_forall in *. intros e He. apply Hall1.
    apply (Permutation_in e (Permutation_sym Hperm) He). }
  destruct (aggregate_parsed directory ii et l1 Hall1) as (r1 & H1 & Hk1 & Ha1).
  destruct (aggregate_parsed directory ii et l2 Hall2) as (r2 & H2 & Hk2 & Ha2).
  exists r1, r2. split; [exact H1|]. split; [exact H2|]. split.
  - intros k. rewrite Hk1, Hk2. apply sumZ_perm, Permutation_map, Hperm.
  - rewrite Ha1, Ha2.
    rewrite (sumZ_perm _ _ (Permutation_map (entry_complexity ii et) Hperm)).
    rewrite (Permutation_length (perm_flat_map (entry_files ii et) _ _ Hperm)).
    reflexivity.
Qed.

(** ** Imports stripped by default *)

Lemma analyze_parsed_summary p b l s :
  exists a1 a2 a3 a4 a5 a6,
    fa_summary (analyze_parsed p b l s)
    = [("class_count", a1); ("method_count", a2); ("function_count", a3);
       ("import_count", a4); ("variable_count", a5); ("unused_count", a6)]%string.
Proof.
  unfold analyze_parsed. destruct_lets. simpl. eauto 7.
Qed.

Lemma process_file_no_imports et st e st' :
  process_file false et st e = Ok st' ->
  Forall stripped (ds_files st) -> Dict.dd_get "import_count" (ds_summary st) = 0 ->
  Forall stripped (ds_files st') /\ Dict.dd_get "import_count" (ds_summary st') = 0.
Proof.
  destruct e as [root [file content]]. unfold process_file.
  destruct (negb (PyStr.endswith ".py" file)).
  { intros H; injection H as <-; auto. }
  destruct (skip_test_file et file).
  { intros H; injection H as <-; auto. }
  destruct content as [b l s|m]; simpl; [|discriminate].
  intros H; injection H as <-. intros Hf Hs. simpl. split.
  - apply Forall_app. split; [exact Hf|]. constructor; [|constructor].
    eexists. split; [reflexivity|]. simpl. split; [reflexivity|].
    rewrite lookup_assign. reflexivity.
  - rewrite dd_get_fold_add, Hs.
    destruct (analyze_parsed_summary (PyStr.join root file) b l s)
      as (a1 & a2 & a3 & a4 & a5 & a6 & ->).
    reflexivity.
Qed.

Lemma process_files_no_imports et l : forall st st',
  process_files false et st l = Ok st' ->
  Forall stripped (ds_files st) -> Dict.dd_get "import_count" (ds_summary st) = 0 ->
  Forall stripped (ds_files st') /\ Dict.dd_get "import_count" (ds_summary st') = 0.
Proof.
  induction l as [|e l IH]; intros st st' H Hf Hs; simpl in H.
  - injection H as <-. auto.
  - destruct (process_file false et st e) as [st1|ex] eqn:He; simpl in H; [|discriminate].
    destruct (process_file_no_imports et st e st1 He Hf Hs) as [Hf1 Hs1].
    exact (IH st1 st' H Hf1 Hs1).
Qed.

Lemma find_module_dependencies_eq files :
  find_module_dependencies files = fold_left dep_file_step files [].
Proof. reflexivity. Qed.

Lemma Forall_assign (P : string * list string -> Prop) k v d :
  Forall P d -> P (k, v) -> Forall P (Dict.assign k v d).
Proof.
  intros Hd Hk. induction Hd as [|[k' v'] r Hx Hr IH]; simpl.
  - constructor; [exact Hk | constructor].
  - destruct (String.eqb k k') eqn:E.
    + apply String.eqb_eq in E; subst. constructor; assumption.
    + constructor; assumption.
Qed.

Lemma mem_assign k k' (v : list string) d :
  Dict.mem k d = true -> Dict.mem k (Dict.assign k' v d) = true.
Proof.
  unfold Dict.mem. rewrite lookup_assign. destruct (String.eqb k k'); [reflexivity|auto].
Qed.

Lemma mem_assign_self k (v : list string) d : Dict.mem k (Dict.assign k v d) = true.
Proof. unfold Dict.mem. rewrite lookup_assign, String.eqb_refl. reflexivity. Qed.

Lemma mem_dep_steps k name imps d :
  Dict.mem k d = true -> Dict.mem k (fold_left (dep_step name) imps d) = true.
Proof.
  revert d. induction imps as [|i imps IH]; intros d H; simpl; [exact H|].
  apply IH. unfold dep_step.
  destruct (_ && _); [apply mem_assign; exact H | exact H].
Qed.

Lemma mem_dep_files k files d :
  Dict.mem k d = true -> Dict.mem k (fold_left dep_file_step files d) = true.
Proof.
  revert d. induction files as [|f files IH]; intros d H; simpl; [exact H|].
  apply IH. unfold dep_file_step. destruct (file_module_and_imports f).
  apply mem_dep_steps, mem_assign, H.
Qed.

Lemma module_key_present files d f :
  In f files -> Dict.mem (fst (file_module_and_imports f)) (fold_left dep_file_step files d) = true.
Proof.
  revert d. induction files as [|g files IH]; intros d Hin; simpl; [contradiction|].
  destruct Hin as [->|Hin]; [|apply IH, Hin].
  apply mem_dep_files. unfold dep_file_step.
  destruct (file_module_and_imports f) as [name imps]. simpl.
  apply mem_dep_steps, mem_assign_self.
Qed.

Lemma deps_empty_when_stripped files d :
  Forall stripped files -> Forall (fun p => snd p = []) d ->
  Forall (fun p => snd p = []) (fold_left dep_file_step files d).
Proof.
  revert d. induction files as [|f files IH]; intros d Hs Hd; simpl; [exact Hd|].
  inversion Hs as [|? ? (o & -> & Hn & _) Hr]; subst.
  apply IH; [exact Hr|]. unfold dep_file_step. simpl. rewrite Hn. simpl.
  apply Forall_assign; [exact Hd | reflexivity].
Qed.

(** C9: with [include_imports] left false, every analyzed file has its
    imports popped and [import_count] 0, the directory's [import_count]
    reads 0, and [module_dependencies] has a key for every analyzed module,
    each mapped to the empty list. *)
Theorem default_strips_imports directory root ic et r :
  analyze_python_directory directory root false ic et = Ok r ->
  Forall stripped (da_files r)
  /\ Dict.dd_get "import_count" (da_summary r) = 0
  /\ Forall (fun p => snd p = []) (da_module_dependencies r)
  /\ Forall (fun f => Dict.mem (fst (file_module_and_imports f)) (da_module_dependencies r) = true)
            (da_files r).
Proof.
  unfold analyze_python_directory, aggregate.
  destruct (process_files false et (mk_dir_state [] []) _) as [st|ex] eqn:Hp; simpl; [|discriminate].
  destruct (total_complexity (ds_files st)) as [tc|ex]; simpl; [|discriminate].
  intros H. injection H as <-. simpl.
  destruct (process_files_no_imports et _ _ _ Hp (Forall_nil _) eq_refl) as [Hf Hs].
  rewrite find_module_dependencies_eq.
  split; [exact Hf|]. split; [exact Hs|]. split.
  - apply deps_empty_when_stripped; [exact Hf | constructor].
  - apply Forall_forall. intros f Hin. apply module_key_present, Hin.
Qed.

(** ** The spec's scenario *)

Example scenario_structure :
  let r := analyze_parsed "proj/scenario.py" scenario_body scenario_lines 80 in
  map c_name (st_classes (fa_structure r)) = ["C"%string]
  /\ map m_name (flat_map c_methods (st_classes (fa_structure r))) = ["m1"; "m2"]%string
  /\ map f_name (st_functions (fa_structure r)) = ["f"%string]
  /\ map v_name (st_variables (fa_structure r)) = ["v"%string]
  /\ map r_line (vals "C" (fa_references r)) = [5; 4].
Proof. vm_compute. repeat split. Qed.

(** ** Counterexamples and failing inputs *)

(** C1: a file that fails to parse yields the error-shaped FileAnalysis, but
    the directory loop then reads [file_result['structure']] (or, with
    [include_imports], [file_result['summary']]) of that result and raises
    [KeyError]: the whole directory scan aborts. *)
Theorem unparseable_file_aborts_directory_scan :
  analyze_python_file "proj/bad.py" (ParseError "invalid syntax (bad.py, line 1)")
  = FA_error "bad.py" "proj/bad.py" "invalid syntax (bad.py, line 1)"
  /\ analyze_python_directory "proj" dir_with_bad_file false false false
     = Raise (KeyError "structure")
  /\ analyze_python_directory "proj" dir_with_bad_file true false false
     = Raise (KeyError "summary").
Proof. split; [|split]; vm_compute; reflexivity. Qed.

(** C2: with [exclude_tests] false the guard
    [exclude_tests and ... or file.lower().endswith('_test.py')] still skips
    [foo_test.py]: the files sequence stays empty. *)
Theorem test_suffix_skipped_without_exclude_tests :
  skip_test_file false "foo_test.py" = true
  /\ exists r, analyze_python_directory "proj" dir_with_test_suffix false false false = Ok r
               /\ da_files r = [].
Proof.
  split; [reflexivity|]. eexists. split; vm_compute; reflexivity.
Qed.

(** C3: [mod in deps] only sees modules already visited, so [a.py]'s
    [import b] gives an edge a -> b when [b.py] is walked first and no edge
    when [a.py] is walked first. *)
Theorem module_dependency_depends_on_order :
  (exists r, analyze_python_directory "proj" dir_a_then_b true false false = Ok r
             /\ da_module_dependencies r = [("a", []); ("b", [])]%string)
  /\ (exists r, analyze_python_directory "proj" dir_b_then_a true false false = Ok r
                /\ da_module_dependencies r = [("b", []); ("a", ["b"])]%string).
Proof. split; eexists; split; vm_compute; reflexivity. Qed.

(** C7: [from m import f] followed by [def f(): pass]: the function is left
    out of the functions collection although no class has a method [f]. *)
Lemma function_omitted_without_matching_method :
  let st := fa_structure (analyze_parsed "proj/m.py" shadowed_def_body
                            ["from m import f"; "def f(): pass"]%string 30) in
  In (FunctionDef "f" 2 [] [] [Node KOther []] []) shadowed_def_body
  /\ ~ ((~ In ("f"%string, 2) (map name_line (st_functions st)))
        <-> exists c m, In c (st_classes st) /\ In m (c_methods c)
                        /\ m_name m = "f"%string /\ m_line m = 2).
Proof.
  cbn zeta. split; [simpl; auto|].
  assert (Hf : st_functions (fa_structure (analyze_parsed "proj/m.py" shadowed_def_body
                 ["from m import f"; "def f(): pass"]%string 30)) = []) by reflexivity.
  assert (Hc : st_classes (fa_structure (analyze_parsed "proj/m.py" shadowed_def_body
                 ["from m import f"; "def f(): pass"]%string 30)) = []) by reflexivity.
  rewrite Hf, Hc. simpl. intros [H _]. destruct (H (fun x => x)) as (c & m & [] & _).
Qed.

(** ** Witnesses *)

Lemma reference_iff_not_definition_line_witness :
  Dict.lookup "C" (definitions_of scenario_body) = Some [1]
  /\ (In (mk_ref 4 16 "def f(): return C()")
         (vals "C" (fa_references (analyze_parsed "proj/scenario.py" scenario_body scenario_lines 80)))
      <-> occurs (Name "C" 4 16) (Module scenario_body) /\ ~ In 4 [1]
          /\ "def f(): return C()"%string = PyStr.strip (nth (Z.to_nat (4 - 1)) scenario_lines ""%string)).
Proof.
  split; [vm_compute; reflexivity|].
  apply (reference_iff_not_definition_line "proj/scenario.py" scenario_body scenario_lines 80 "C" [1]).
  vm_compute. reflexivity.
Defined.

Lemma function_dedup_by_name_and_line_witness :
  let st := fa_structure (analyze_parsed "proj/c.py" method_and_function_body
                            ["class C:"; "  def m(self): pass"; ""; "def m(): pass"]%string 40) in
  In (FunctionDef "m" 4 [] [] [Node KOther []] []) method_and_function_body
  /\ ~ In "m"%string (shadow_set (Module method_and_function_body))
  /\ (In ("m"%string, 4) (map name_line (st_functions st))
      <-> ~ exists c m, In c (st_classes st) /\ In m (c_methods c)
                        /\ m_name m = "m"%string /\ m_line m = 4).
Proof.
  cbn zeta. split; [simpl; auto|]. split; [vm_compute; intros H; exact H|].
  apply (function_dedup_by_name_and_line "proj/c.py" method_and_function_body
           ["class C:"; "  def m(self): pass"; ""; "def m(): pass"]%string 40 "m" 4 [] [] [Node KOther []] []).
  - simpl; auto.
  - vm_compute. intros H; exact H.
Defined.

Lemma aggregation_order_independent_witness :
  Permutation (walk_files false false "proj" dir_a_then_b) (walk_files false false "proj" dir_b_then_a)
  /\ Forall (fun e => selected false e = true -> is_parsed (content_of e) = true)
            (walk_files false false "proj" dir_a_then_b)
  /\ exists r1 r2,
       analyze_python_directory "proj" dir_a_then_b true false false = Ok r1
       /\ analyze_python_directory "proj" dir_b_then_a true false false = Ok r2
       /\ (forall k, Dict.dd_get k (da_summary r1) = Dict.dd_get k (da_summary r2))
       /\ da_avg_complexity_hundredths r1 = da_avg_complexity_hundredths r2.
Proof.
  assert (Hp : Permutation (walk_files false false "proj" dir_a_then_b)
                           (walk_files false false "proj" dir_b_then_a))
    by (simpl; apply perm_swap).
  assert (Hf : Forall (fun e => selected false e = true -> is_parsed (content_of e) = true)
                      (walk_files false false "proj" dir_a_then_b))
    by (simpl; repeat constructor).
  split; [exact Hp|]. split; [exact Hf|].
  exact (aggregation_order_independent "proj" dir_a_then_b dir_b_then_a true false false Hp Hf).
Defined.

Lemma default_strips_imports_witness :
  exists r, analyze_python_directory "proj" dir_a_then_b false false false = Ok r
    /\ Forall stripped (da_files r)
    /\ Dict.dd_get "import_count" (da_summary r) = 0
    /\ Forall (fun p => snd p = []) (da_module_dependencies r)
    /\ Forall (fun f => Dict.mem (fst (file_module_and_imports f)) (da_module_dependencies r) = true)
              (da_files r).
Proof.
  eexists. split; [vm_compute; reflexivity|].
  apply (default_strips_imports "proj" dir_a_then_b false false). vm_compute. reflexivity.
Defined.

Lemma nested_import_shadows_witness :
  let st := fa_structure (analyze_parsed "proj/n.py" nested_import_body
                            ["def g():"; "    import os"; "class os: pass"; ""; "os = None"]%string 60) in
  occurs (Import 2 [mk_alias "os" None]) (Module nested_import_body)
  /\ In "os"%string (bound_names (Import 2 [mk_alias "os" None]))
  /\ ~ In "os"%string (map c_name (st_classes st))
  /\ ~ In "os"%string (map f_name (st_functions st))
  /\ ~ In "os"%string (map v_name (st_variables st)).
Proof.
  assert (Ho : occurs (Import 2 [mk_alias "os" None]) (Module nested_import_body)).
  { eapply occurs_child; [simpl; left; reflexivity|].
    eapply occurs_child; [simpl; left; reflexivity|]. constructor. }
  assert (Hb : In "os"%string (bound_names (Import 2 [mk_alias "os" None])))
    by (simpl; left; reflexivity).
  cbn zeta. split; [exact Ho|]. split; [exact Hb|].
  exact (nested_import_shadows "proj/n.py" nested_import_body
           ["def g():"; "    import os"; "class os: pass"; ""; "os = None"]%string 60 _ _ Ho Hb).
Defined.

(* ------------------------------------------------------------------ *)
(** ** Further properties of the analyzer, the directory scan, the code maps and the CLI *)




Lemma find_app_split {A} (p : A -> bool) l1 l2 :
  find p (l1 ++ l2) = match find p l1 with Some x => Some x | None => find p l2 end.
Proof. induction l1 as [|x l1 IH]; simpl; [reflexivity|]. destruct (p x); [reflexivity|exact IH]. Qed.

Lemma lookup_code_map_fold fn fs acc :
  Dict.lookup fn (fold_left (fun acc f => Dict.assign (filename_of f) (generate_file_code_map f) acc) fs acc)
  = match last_file_named fn fs with
    | Some f => Some (generate_file_code_map f)
    | None => Dict.lookup fn acc
    end.
Proof.
  unfold last_file_named. revert acc. induction fs as [|f fs IH]; intros acc; simpl; [reflexivity|].
  rewrite IH, find_app_split. destruct (find _ (rev fs)) as [g|]; [reflexivity|].
  simpl. rewrite lookup_assign.
  destruct (String.eqb_spec fn (filename_of f)) as [->|Hne].
  - rewrite String.eqb_refl. reflexivity.
  - destruct (String.eqb_spec (filename_of f) fn); [congruence|reflexivity].
Qed.

(** The directory code map is keyed by bare filename: the entry for [fn] is the map of the last analyzed file named [fn], so same-named files in different sub-directories overwrite each other. *)
Theorem generate_code_map_last_wins d fn :
  Dict.lookup fn (generate_code_map (DirResult d))
  = option_map generate_file_code_map (last_file_named fn (da_files d)).
Proof.
  unfold generate_code_map. rewrite lookup_code_map_fold.
  destruct (last_file_named fn (da_files d)); reflexivity.
Qed.

Lemma length_fold_aliases {E} (f : alias -> E) (g : alias -> string) als es im :
  length (fst (fold_left (fun '(es, im) a => (es ++ [f a], im ++ [g a])) als (es, im)))
  = (length es + length als)%nat.
Proof.
  revert es im. induction als as [|a als IH]; intros es im; simpl; [lia|].
  rewrite IH, length_app. simpl. lia.
Qed.

Lemma length_import_step acc n :
  Z.of_nat (length (fst (import_step acc n))) = Z.of_nat (length (fst acc)) + w_import_aliases n.
Proof.
  destruct acc as [es im]. destruct n; simpl; try lia.
  - rewrite (length_fold_aliases (fun a => ImpPlain (al_name a) (al_asname a) lineno)). lia.
  - rewrite (length_fold_aliases (fun a => ImpFrom (py_or module "") (al_name a) (al_asname a) lineno)). lia.
Qed.

(** [import_count] of a file is the number of aliases over all [import] and [from ... import] statements at any depth of the tree. *)
Theorem import_count_is_alias_count p body lines size :
  Dict.lookup "import_count" (fa_summary (analyze_parsed p body lines size))
  = Some (count_nodes w_import_aliases (Module body)).
Proof.
  assert (H : forall l acc, Z.of_nat (length (fst (fold_left import_step l acc)))
                            = Z.of_nat (length (fst acc)) + sumZ (map w_import_aliases l)).
  { induction l as [|n l IH]; intros acc; simpl; [lia|].
    rewrite IH, length_import_step. unfold sumZ; simpl. lia. }
  unfold count_nodes.
  unfold analyze_parsed in *. unfold collect_imports in *.
  destruct (fold_left import_step (walk (Module body)) ([], [])) as [imports imported] eqn:E.
  destruct_lets. simpl. pose proof (H (walk (Module body)) ([], [])) as H2. rewrite E in H2. simpl in H2. rewrite H2. reflexivity.
Qed.

Lemma fst_class_fold im body acc :
  fst (fold_left (class_step im) body acc)
  = fst acc ++ flat_map (fun n => match n with
                                  | ClassDef nm l _ b _ =>
                                      if in_set nm im then [] else [mk_class nm l (methods_of b)]
                                  | _ => []
                                  end) body.
Proof.
  revert acc. induction body as [|n body IH]; intros [cls defs]; simpl; [rewrite app_nil_r; reflexivity|].
  rewrite IH. destruct n; simpl; try reflexivity.
  destruct (in_set name im); simpl; [reflexivity|]. rewrite <- app_assoc. reflexivity.
Qed.

(** The extracted classes are exactly the top-level [class] statements whose name is not bound by an import, each with its line and the methods of its body. *)
Theorem classes_are_top_level_unshadowed p body lines size c :
  In c (st_classes (fa_structure (analyze_parsed p body lines size)))
  <-> exists bs b ds, In (ClassDef (c_name c) (c_line_start c) bs b ds) body
                      /\ ~ In (c_name c) (shadow_set (Module body))
                      /\ c_methods c = methods_of b.
Proof.
  destruct (analyze_parsed_structure p body lines size) as (_ & Hc & _).
  rewrite Hc, fst_class_fold. simpl. rewrite in_flat_map. split.
  - intros (n & Hn & Hin). destruct n; simpl in Hin; try contradiction.
    destruct (in_set name (shadow_set (Module body))) eqn:E; simpl in Hin; [contradiction|].
    destruct Hin as [<-|[]]. simpl. exists bases, body0, decorators.
    split; [exact Hn|]. split; [apply in_set_false; exact E | reflexivity].
  - intros (bs & b & ds & Hn & Hs & Hm). eexists. split; [exact Hn|].
    apply in_set_false in Hs. simpl. rewrite Hs. left. destruct c; simpl in *; subst. reflexivity.
Qed.




Lemma vals_sda_mono {A} k (v : A) d x l :
  In l (vals x d) -> In l (vals x (Dict.setdefault_append k v d)).
Proof.
  rewrite vals_setdefault_append. destruct (String.eqb x k); [|tauto].
  intros H. apply in_app_iff. left. exact H.
Qed.

Lemma vals_sda_self {A} k (v : A) d : In v (vals k (Dict.setdefault_append k v d)).
Proof. rewrite vals_setdefault_append, String.eqb_refl. apply in_app_iff. right. left. reflexivity. Qed.

Lemma fold_defs_grow {E} (step : list E * definitions_t -> node -> list E * definitions_t) body acc x l :
  defs_grow step -> In l (vals x (snd acc)) -> In l (vals x (snd (fold_left step body acc))).
Proof.
  intros Hg. revert acc. induction body as [|n body IH]; intros acc H; simpl; [exact H|].
  apply IH, Hg, H.
Qed.

Lemma fold_sda_grow {E} (f : E -> string) (g : E -> Z) ms d x l :
  In l (vals x d) -> In l (vals x (fold_left (fun d m => Dict.setdefault_append (f m) (g m) d) ms d)).
Proof.
  revert d. induction ms as [|m ms IH]; intros d H; simpl; [exact H|]. apply IH, vals_sda_mono, H.
Qed.

Lemma fold_sda_self {E} (f : E -> string) (g : E -> Z) ms d :
  Forall (fun m => In (g m) (vals (f m) (fold_left (fun d m => Dict.setdefault_append (f m) (g m) d) ms d))) ms.
Proof.
  revert d. induction ms as [|m ms IH]; intros d; simpl; constructor.
  - apply fold_sda_grow, vals_sda_self.
  - apply IH.
Qed.

Lemma class_step_grow im : defs_grow (class_step im).
Proof.
  intros [cls defs] n x l H. destruct n; simpl; try exact H.
  destruct (in_set name im); simpl; [exact H|]. apply fold_sda_grow, vals_sda_mono, H.
Qed.

Lemma function_step_grow im cls : defs_grow (function_step im cls).
Proof.
  intros [fs defs] n x l H. destruct n; simpl; try exact H.
  destruct (in_set name im); simpl; [exact H|].
  destruct (is_method cls name lineno); simpl; [exact H|]. apply vals_sda_mono, H.
Qed.

Lemma variable_step_grow im : defs_grow (variable_step im).
Proof.
  assert (Ht : forall ts acc x l, In l (vals x (snd acc)) ->
                 In l (vals x (snd (fold_left (target_step im) ts acc)))).
  { induction ts as [|t ts IH]; intros [vs defs] x l H; simpl; [exact H|].
    apply IH. destruct t; simpl; try exact H.
    destruct (in_set id im); simpl; [exact H|]. apply vals_sda_mono, H. }
  intros acc n x l H. destruct n; simpl; try exact H. apply Ht, H.
Qed.

Lemma class_registered_grow defs defs' c :
  (forall x l, In l (vals x defs) -> In l (vals x defs')) ->
  class_registered defs c -> class_registered defs' c.
Proof.
  intros Hg [H1 H2]. split; [apply Hg, H1|]. eapply Forall_impl; [|exact H2]. intros m. apply Hg.
Qed.

Lemma class_fold_registered im body acc :
  Forall (class_registered (snd acc)) (fst acc) ->
  Forall (class_registered (snd (fold_left (class_step im) body acc)))
         (fst (fold_left (class_step im) body acc)).
Proof.
  revert acc. induction body as [|n body IH]; intros acc H; simpl; [exact H|].
  apply IH. destruct acc as [cls defs]. destruct n; simpl; try exact H.
  destruct (in_set name im); simpl; [exact H|].
  apply Forall_app. split.
  - eapply Forall_impl; [|exact H]. intros c. apply class_registered_grow.
    intros x l Hl. apply fold_sda_grow, vals_sda_mono, Hl.
  - constructor; [|constructor]. split; simpl.
    + apply fold_sda_grow, vals_sda_self.
    + apply fold_sda_self.
Qed.

Lemma function_fold_registered im cls body acc :
  Forall (fun f => In (f_line f) (vals (f_name f) (snd acc))) (fst acc) ->
  Forall (fun f => In (f_line f) (vals (f_name f) (snd (fold_left (function_step im cls) body acc))))
         (fst (fold_left (function_step im cls) body acc)).
Proof.
  revert acc. induction body as [|n body IH]; intros acc H; simpl; [exact H|].
  apply IH. destruct acc as [fs defs]. destruct n; simpl; try exact H.
  destruct (in_set name im); simpl; [exact H|].
  destruct (is_method cls name lineno); simpl; [exact H|].
  apply Forall_app. split.
  - eapply Forall_impl; [|exact H]. intros f. apply vals_sda_mono.
  - constructor; [|constructor]. apply vals_sda_self.
Qed.

Lemma variable_fold_registered im body acc :
  Forall (fun v => In (v_line v) (vals (v_name v) (snd acc))) (fst acc) ->
  Forall (fun v => In (v_line v) (vals (v_name v) (snd (fold_left (variable_step im) body acc))))
         (fst (fold_left (variable_step im) body acc)).
Proof.
  assert (Ht : forall ts acc,
    Forall (fun v => In (v_line v) (vals (v_name v) (snd acc))) (fst acc) ->
    Forall (fun v => In (v_line v) (vals (v_name v) (snd (fold_left (target_step im) ts acc))))
           (fst (fold_left (target_step im) ts acc))).
  { induction ts as [|t ts IH]; intros [vs defs] H; simpl; [exact H|].
    apply IH. destruct t; simpl; try exact H.
    destruct (in_set id im); simpl; [exact H|].
    apply Forall_app. split.
    - eapply Forall_impl; [|exact H]. intros v. apply vals_sda_mono.
    - constructor; [|constructor]. apply vals_sda_self. }
  revert acc. induction body as [|n body IH]; intros acc H; simpl; [exact H|].
  apply IH. destruct n; simpl; try exact H. apply Ht, H.
Qed.

Lemma definitions_of_eq body :
  let im := shadow_set (Module body) in
  let fc := fold_left (class_step im) body ([], []) in
  let ff := fold_left (function_step im (fst fc)) body ([], snd fc) in
  definitions_of body = snd (fold_left (variable_step im) body ([], snd ff)).
Proof.
  cbn zeta. unfold definitions_of.
  destruct (fold_left (class_step (shadow_set (Module body))) body ([], [])) as [c1 d1].
  cbn [fst snd].
  destruct (fold_left (function_step (shadow_set (Module body)) c1) body ([], d1)) as [f2 d2].
  reflexivity.
Qed.

(** Every extracted class, method, function and variable has its line recorded under its name in the definitions registry used by the reference scan. *)
Theorem declarations_registered p body lines size :
  let st := fa_structure (analyze_parsed p body lines size) in
  let defs := definitions_of body in
  Forall (fun c => In (c_line_start c) (vals (c_name c) defs)
                   /\ Forall (fun m => In (m_line m) (vals (m_name m) defs)) (c_methods c))
         (st_classes st)
  /\ Forall (fun f => In (f_line f) (vals (f_name f) defs)) (st_functions st)
  /\ Forall (fun v => In (v_line v) (vals (v_name v) defs)) (st_variables st).
Proof.
  cbn zeta. destruct (analyze_parsed_structure p body lines size) as (_ & Hc & Hf & Hv).
  rewrite Hc, Hf, Hv, definitions_of_eq. cbn zeta.
  set (im := shadow_set (Module body)).
  set (fc := fold_left (class_step im) body ([], [])).
  set (ff := fold_left (function_step im (fst fc)) body ([], snd fc)).
  set (fv := fold_left (variable_step im) body ([], snd ff)).
  assert (G2 : forall x l, In l (vals x (snd ff)) -> In l (vals x (snd fv)))
    by (intros x l Hl;
        exact (fold_defs_grow (variable_step im) body ([], snd ff) x l (variable_step_grow im) Hl)).
  assert (G1 : forall x l, In l (vals x (snd fc)) -> In l (vals x (snd ff)))
    by (intros x l Hl;
        exact (fold_defs_grow (function_step im (fst fc)) body ([], snd fc) x l
                 (function_step_grow im (fst fc)) Hl)).
  split; [|split].
  - assert (Hcr : Forall (class_registered (snd fc)) (fst fc))
      by (apply class_fold_registered; constructor).
    eapply Forall_impl; [|exact Hcr]. intros c Hr.
    apply (class_registered_grow (snd fc)); [intros x l Hl; apply G2, G1, Hl | exact Hr].
  - assert (Hfr := function_fold_registered im (fst fc) body ([], snd fc) (Forall_nil _)).
    fold ff in Hfr. eapply Forall_impl; [|exact Hfr]. intros f. apply G2.
  - apply variable_fold_registered. constructor.
Qed.

Lemma Forall_assign_any {A} (P : string * A -> Prop) k v d :
  Forall P d -> P (k, v) -> Forall P (Dict.assign k v d).
Proof.
  intros Hd Hk. induction Hd as [|[k' v'] r Hx Hr IH]; simpl.
  - constructor; [exact Hk | constructor].
  - destruct (String.eqb_spec k k') as [<-|]; constructor; assumption.
Qed.

Lemma keys_assign {A} k (v : A) d :
  map fst (Dict.assign k v d) = if Dict.mem k d then map fst d else map fst d ++ [k].
Proof.
  unfold Dict.mem. induction d as [|[k' v'] r IH]; simpl; [reflexivity|].
  destruct (String.eqb_spec k k') as [<-|]; simpl; [reflexivity|].
  rewrite IH. destruct (Dict.lookup k r); reflexivity.
Qed.

Lemma NoDup_assign {A} k (v : A) d :
  NoDup (map fst d) -> NoDup (map fst (Dict.assign k v d)).
Proof.
  intros H. rewrite keys_assign. destruct (Dict.mem k d) eqn:E; [exact H|].
  apply NoDup_app; [exact H | repeat constructor; simpl; tauto |].
  intros x Hx [->|[]]. unfold Dict.mem in E.
  apply in_map_iff in Hx as ([k' v'] & Hk & Hin). simpl in Hk. subst k'.
  clear H. induction d as [|[k'' v''] r IH]; [contradiction|]. simpl in *.
  destruct (String.eqb_spec x k''); [discriminate|].
  destruct Hin as [Hin|Hin]; [congruence|]. exact (IH E Hin).
Qed.

Lemma lookup_NoDup {A} k (v : A) d :
  NoDup (map fst d) -> In (k, v) d -> Dict.lookup k d = Some v.
Proof.
  induction d as [|[k' v'] r IH]; simpl; [contradiction|].
  intros Hn [E|Hin]; inversion Hn as [|? ? Hk Hr]; subst.
  - injection E as <- <-. rewrite String.eqb_refl. reflexivity.
  - destruct (String.eqb_spec k k') as [<-|]; [|apply IH; assumption].
    exfalso. apply Hk. apply in_map_iff. exists (k, v). auto.
Qed.

Lemma dd_get_nonneg k d : comp_inv d -> 0 <= Dict.dd_get k d.
Proof.
  intros [_ H]. unfold Dict.dd_get. induction H as [|[k' v'] r [_ Hv] Hr IH]; simpl; [lia|].
  destruct (String.eqb k k'); simpl in *; lia.
Qed.

Lemma dd_add_inv k v d : comp_inv d -> In k counter_keys -> 0 < v -> comp_inv (Dict.dd_add k v d).
Proof.
  intros Hi Hk Hv. pose proof (dd_get_nonneg k d Hi) as Hg. destruct Hi as [Hn Hf].
  unfold Dict.dd_add. split; [apply NoDup_assign, Hn|].
  apply Forall_assign_any; [exact Hf|]. simpl. split; [exact Hk | lia].
Qed.

Lemma bump_inv n d : comp_inv d -> comp_inv (bump n d).
Proof.
  intros H. unfold counter_keys in *.
  destruct n as [| | | | | | | |k cs]; try destruct k; cbn [bump];
    repeat (apply dd_add_inv; [| simpl; tauto | lia]); try exact H.
Qed.

Lemma visit_inv t d : comp_inv d -> comp_inv (visit t d).
Proof.
  revert d. induction t as [t IH] using node_rect_children. intros d H.
  rewrite visit_unfold. pose proof (bump_inv t d H) as Hb. clear H. revert Hb. generalize (bump t d). clear d.
  induction IH as [|c cs Hc Hcs IHcs]; intros d H; simpl; [exact H|].
  apply IHcs, Hc, H.
Qed.

(** [detailed_complexity] has distinct keys, all among the five counters; each present key holds a positive value equal to that counter's count over the tree, so a counter with a zero count is absent. *)
Theorem detailed_complexity_entries p body lines size :
  let comp := mt_detailed_complexity (fa_metrics (analyze_parsed p body lines size)) in
  NoDup (map fst comp)
  /\ Forall (fun p => In (fst p) counter_keys /\ 0 < snd p
                      /\ snd p = count_nodes (w_key (fst p)) (Module body)) comp.
Proof.
  cbn zeta. rewrite analyze_parsed_metrics. simpl.
  assert (Hi : comp_inv (visit (Module body) [])) by (apply visit_inv; split; constructor).
  destruct Hi as [Hn Hf]. split; [exact Hn|].
  apply Forall_forall. intros [k v] Hin. rewrite Forall_forall in Hf.
  destruct (Hf _ Hin) as [Hk Hv]. split; [exact Hk|]. split; [exact Hv|]. simpl.
  pose proof (visit_get k (Module body) []) as Hg. unfold Dict.dd_get at 1 in Hg.
  rewrite (lookup_NoDup k v _ Hn Hin) in Hg. rewrite Hg. reflexivity.
Qed.

Lemma complexity_pos p body lines size :
  1 <= mt_complexity (fa_metrics (analyze_parsed p body lines size)).
Proof.
  rewrite analyze_parsed_metrics. cbn [metrics_of mt_complexity].
  assert (Hi : comp_inv (visit (Module body) [])) by (apply visit_inv; split; constructor).
  pose proof (dd_get_nonneg "conditionals" _ Hi). pose proof (dd_get_nonneg "loops" _ Hi).
  pose proof (dd_get_nonneg "exceptions" _ Hi). pose proof (dd_get_nonneg "boolean_ops" _ Hi).
  lia.
Qed.

(** The complexity of a file is at least 1. *)
Theorem complexity_at_least_one p body lines size :
  1 <= mt_complexity (fa_metrics (analyze_parsed p body lines size)).
Proof. apply complexity_pos. Qed.

Lemma ref_step_inv defs lines refs n :
  Forall (ref_inv defs) refs -> Forall (ref_inv defs) (ref_step defs lines refs n).
Proof.
  intros H. destruct n as [| | | | | |x l c| |]; simpl; try exact H.
  destruct (Dict.lookup x defs) as [ls|] eqn:Hd; [|exact H].
  destruct (negb (existsb (Z.eqb l) ls)); [|exact H].
  unfold Dict.setdefault_append. destruct (Dict.lookup x refs) as [rs|].
  - apply Forall_assign_any; [exact H|]. split; simpl.
    + unfold Dict.mem. rewrite Hd. reflexivity.
    + destruct rs; discriminate.
  - apply Forall_app. split; [exact H|]. constructor; [|constructor]. split; simpl.
    + unfold Dict.mem. rewrite Hd. reflexivity.
    + discriminate.
Qed.

(** Every key of [references] is a name of the definitions registry, and its list of references is non-empty. *)
Theorem references_keys_registered p body lines size :
  Forall (fun r => Dict.mem (fst r) (definitions_of body) = true /\ snd r <> [])
         (fa_references (analyze_parsed p body lines size)).
Proof.
  rewrite analyze_parsed_refs. unfold scan_references.
  assert (G : forall l refs, Forall (ref_inv (definitions_of body)) refs ->
             Forall (ref_inv (definitions_of body))
                    (fold_left (ref_step (definitions_of body) lines) l refs)).
  { induction l as [|n l IH]; intros refs H; simpl; [exact H|]. apply IH, ref_step_inv, H. }
  apply (G _ [] (Forall_nil _)).
Qed.





Lemma process_files_skipped_all ii et l st :
  Forall (fun e => selected et e = false) l -> process_files ii et st l = Ok st.
Proof.
  revert st. induction l as [|e l IH]; intros st H; simpl; [reflexivity|].
  inversion H as [|? ? He Hl]; subst. rewrite process_file_skipped by exact He. simpl. apply IH, Hl.
Qed.

(** When the walk selects no file, the directory analysis succeeds with no files, no summary counter, [avg_complexity] 0 and no module dependencies. *)
Theorem empty_selection_result directory root ii ic et :
  Forall (fun e => selected et e = false) (walk_files ic et directory root) ->
  analyze_python_directory directory root ii ic et = Ok (mk_dir_analysis directory [] [] 0 []).
Proof.
  intros H. unfold analyze_python_directory, aggregate.
  rewrite process_files_skipped_all by exact H. reflexivity.
Qed.

(** One iteration either skips the entry or appends a full FileAnalysis. *)
Lemma process_file_cases ii et st e st' :
  process_file ii et st e = Ok st' ->
  st' = st
  \/ exists o, ds_files st' = ds_files st ++ [FA_ok o]
               /\ ds_summary st' = fold_summary (fa_summary o) (ds_summary st)
               /\ 1 <= mt_complexity (fa_metrics o).
Proof.
  destruct e as [root [file content]]. unfold process_file.
  destruct (negb (PyStr.endswith ".py" file)); [intros H; injection H as <-; auto|].
  destruct (skip_test_file et file); [intros H; injection H as <-; auto|].
  destruct content as [b l s|m]; [|destruct ii; simpl; discriminate].
  right. destruct ii; simpl in H |- *; injection H as <-; simpl.
  - eexists. split; [reflexivity|]. split; [reflexivity|]. apply complexity_pos.
  - eexists. split; [reflexivity|]. split; [reflexivity|]. apply complexity_pos.
Qed.

Lemma process_files_cases ii et l : forall st st',
  process_files ii et st l = Ok st' ->
  Forall file_ok_ge1 (ds_files st) ->
  (forall k, Dict.dd_get k (ds_summary st)
             = sumZ (map (fun f => sum_key k (summary_value f)) (ds_files st))) ->
  Forall file_ok_ge1 (ds_files st')
  /\ forall k, Dict.dd_get k (ds_summary st')
               = sumZ (map (fun f => sum_key k (summary_value f)) (ds_files st')).
Proof.
  induction l as [|e l IH]; intros st st' H Hf Hs; simpl in H.
  - injection H as <-. auto.
  - destruct (process_file ii et st e) as [st1|ex] eqn:He; simpl in H; [|discriminate].
    apply (IH st1 st' H).
    + destruct (process_file_cases ii et st e st1 He) as [->|(o & Hf1 & _ & Hc)]; [exact Hf|].
      rewrite Hf1. apply Forall_app. split; [exact Hf|]. constructor; [|constructor]. exists o; auto.
    + destruct (process_file_cases ii et st e st1 He) as [->|(o & Hf1 & Hs1 & _)]; [exact Hs|].
      intros k. rewrite Hf1, Hs1, map_app, sumZ_app. unfold fold_summary.
      rewrite dd_get_fold_add, Hs. f_equal. unfold sumZ. simpl. lia.
Qed.

Lemma directory_files_ok directory root ii ic et r :
  analyze_python_directory directory root ii ic et = Ok r ->
  Forall file_ok_ge1 (da_files r)
  /\ (forall k, Dict.dd_get k (da_summary r)
                = sumZ (map (fun f => sum_key k (summary_value f)) (da_files r)))
  /\ exists tc, total_complexity (da_files r) = Ok tc
                /\ da_avg_complexity_hundredths r
                   = round2_div tc (match length (da_files r) with O => 1 | n => Z.of_nat n end).
Proof.
  unfold analyze_python_directory, aggregate.
  destruct (process_files ii et (mk_dir_state [] []) _) as [st|ex] eqn:Hp; simpl; [|discriminate].
  destruct (total_complexity (ds_files st)) as [tc|ex] eqn:Ht; simpl; [|discriminate].
  intros H. injection H as <-. simpl.
  destruct (process_files_cases ii et _ _ _ Hp (Forall_nil _)) as [Hf Hs];
    [intros k; reflexivity|].
  split; [exact Hf|]. split; [exact Hs|]. exists tc. split; [exact Ht | reflexivity].
Qed.

(** Each counter of the directory summary (the keys added up before [avg_complexity] is set) is the sum of that key over the summaries of the analyzed files. *)
Theorem directory_summary_is_sum_of_files directory root ii ic et r :
  analyze_python_directory directory root ii ic et = Ok r ->
  forall k, Dict.dd_get k (da_summary r)
            = sumZ (map (fun f => sum_key k (summary_value f)) (da_files r)).
Proof. intros H. apply (directory_files_ok _ _ _ _ _ _ H). Qed.

Lemma total_complexity_ge fs tc :
  Forall file_ok_ge1 fs -> total_complexity fs = Ok tc -> Z.of_nat (length fs) <= tc.
Proof.
  revert tc. induction fs as [|f fs IH]; intros tc Hf Ht; simpl in *.
  - injection Ht as <-. lia.
  - inversion Hf as [|? ? (o & -> & Ho) Hr]; subst.
    destruct (total_complexity fs) as [t|ex] eqn:E; simpl in Ht; [|discriminate].
    injection Ht as <-. specialize (IH t Hr eq_refl). lia.
Qed.

Lemma round2_div_ge tc n : 0 < n -> n <= tc -> 100 <= round2_div tc n.
Proof.
  intros Hn Ht. unfold round2_div.
  assert (Hq : 100 <= 100 * tc / n) by (apply Z.div_le_lower_bound; lia).
  destruct (_ <? _); [lia|]. destruct (_ <? _); [lia|]. destruct (Z.even _); lia.
Qed.

(** A successful directory analysis with at least one file has [avg_complexity] at least 1.00. *)
Theorem avg_complexity_at_least_one directory root ii ic et r :
  analyze_python_directory directory root ii ic et = Ok r ->
  da_files r <> [] ->
  100 <= da_avg_complexity_hundredths r.
Proof.
  intros H Hne. destruct (directory_files_ok _ _ _ _ _ _ H) as (Hf & _ & tc & Ht & ->).
  pose proof (total_complexity_ge _ _ Hf Ht) as Hge.
  destruct (da_files r) as [|f fs] eqn:E; [contradiction|].
  apply round2_div_ge; simpl in *; lia.
Qed.

Lemma process_files_ok_parsed ii et l : forall st st',
  process_files ii et st l = Ok st' ->
  Forall (fun e => selected et e = true -> is_parsed (content_of e) = true) l.
Proof.
  induction l as [|e l IH]; intros st st' H; simpl in H; constructor.
  - intros Hs. destruct (process_file ii et st e) as [st1|ex] eqn:He; simpl in H; [|discriminate].
    destruct e as [root [file content]]. unfold selected in Hs. unfold process_file in He.
    apply andb_true_iff in Hs as [H1 H2]. apply negb_true_iff in H2. rewrite H1, H2 in He.
    destruct content; [reflexivity|]. destruct ii; discriminate.
  - destruct (process_file ii et st e) as [st1|ex] eqn:He; simpl in H; [|discriminate].
    exact (IH st1 st' H).
Qed.

Lemma sum_key_assign_other k k' v d :
  k <> k' -> sum_key k (Dict.assign k' v d) = sum_key k d.
Proof.
  intros Hne. unfold sum_key. induction d as [|[x w] r IH]; simpl.
  - unfold sumZ; simpl. destruct (String.eqb_spec k k'); [contradiction|reflexivity].
  - destruct (String.eqb_spec k' x) as [<-|]; simpl.
    + destruct (String.eqb_spec k k'); [contradiction|reflexivity].
    + unfold sumZ in *; simpl. rewrite IH. reflexivity.
Qed.

Lemma entry_result_strip e :
  is_parsed (content_of e) = true ->
  file_view (entry_result true e) = file_view (entry_result false e)
  /\ complexity_value (entry_result true e) = complexity_value (entry_result false e)
  /\ forall k, k <> "import_count"%string ->
       sum_key k (summary_value (entry_result true e))
       = sum_key k (summary_value (entry_result false e)).
Proof.
  destruct e as [root [file [b l s|m]]]; unfold content_of; simpl; [|discriminate].
  intros _. split; [reflexivity|]. split; [reflexivity|].
  intros k Hk. symmetry. apply sum_key_assign_other, Hk.
Qed.

Lemma entry_strip_eq et e :
  (selected et e = true -> is_parsed (content_of e) = true) ->
  map file_view (entry_files true et e) = map file_view (entry_files false et e)
  /\ entry_complexity true et e = entry_complexity false et e
  /\ forall k, k <> "import_count"%string -> entry_contrib true et k e = entry_contrib false et k e.
Proof.
  intros He. unfold entry_files, entry_complexity, entry_contrib.
  destruct (selected et e) eqn:Hs; [|repeat split; reflexivity].
  destruct (entry_result_strip e (He eq_refl)) as (E1 & E2 & E3). simpl.
  rewrite E1, E2. repeat split. intros k Hk. apply E3, Hk.
Qed.

(** Turning [include_imports] on changes only the imports: when the analysis succeeds with it, it succeeds without it, with the same files (info, classes, functions, variables, metrics, references), the same summary values except [import_count], and the same [avg_complexity]. *)
Theorem include_imports_changes_only_imports directory root ic et r1 :
  analyze_python_directory directory root true ic et = Ok r1 ->
  exists r2, analyze_python_directory directory root false ic et = Ok r2
    /\ map file_view (da_files r1) = map file_view (da_files r2)
    /\ (forall k, k <> "import_count"%string ->
                  Dict.dd_get k (da_summary r1) = Dict.dd_get k (da_summary r2))
    /\ da_avg_complexity_hundredths r1 = da_avg_complexity_hundredths r2.
Proof.
  unfold analyze_python_directory, aggregate.
  set (l := walk_files ic et directory root).
  destruct (process_files true et (mk_dir_state [] []) l) as [st|ex] eqn:Hp; simpl; [|discriminate].
  intros Hr.
  pose proof (process_files_ok_parsed _ _ _ _ _ Hp) as Hall.
  destruct (process_files_parsed true et l Hall (mk_dir_state [] [])) as (s1 & H1 & Hk1).
  destruct (process_files_parsed false et l Hall (mk_dir_state [] [])) as (s2 & H2 & Hk2).
  rewrite Hp in H1. injection H1 as ->. rewrite H2. simpl in *.
  rewrite (total_complexity_parsed true et l Hall) in Hr.
  rewrite (total_complexity_parsed false et l Hall). simpl in *.
  injection Hr as <-. eexists. split; [reflexivity|]. simpl.
  assert (Hv : map file_view (flat_map (entry_files true et) l)
               = map file_view (flat_map (entry_files false et) l)
               /\ sumZ (map (entry_complexity true et) l) = sumZ (map (entry_complexity false et) l)
               /\ forall k, k <> "import_count"%string ->
                    sumZ (map (entry_contrib true et k) l) = sumZ (map (entry_contrib false et k) l)).
  { clear Hp Hk1 Hk2 H2. induction Hall as [|e l' He Hl IH]; [repeat split; reflexivity|].
    destruct IH as (IH1 & IH3 & IH4).
    destruct (entry_strip_eq et e He) as (E1 & E2 & E3).
    split; [|split].
    - simpl. rewrite !map_app, E1, IH1. reflexivity.
    - unfold sumZ in *; simpl. rewrite E2, IH3. reflexivity.
    - intros k Hk. unfold sumZ in *; simpl. rewrite (E3 k Hk), (IH4 k Hk). reflexivity. }
  destruct Hv as (V1 & V3 & V4).
  assert (V2 : length (flat_map (entry_files true et) l) = length (flat_map (entry_files false et) l))
    by (rewrite <- (length_map file_view), V1, length_map; reflexivity).
  rewrite ?app_nil_l. split; [exact V1|]. split.
  - intros k Hk. rewrite Hk1, Hk2. simpl. rewrite (V4 k Hk). reflexivity.
  - rewrite V2, V3. reflexivity.
Qed.

(** [analyze_python_code] on a directory runs with the default options: every file has its imports popped and [import_count] 0, the directory's [import_count] is 0 and every module has no dependencies. *)
Theorem analyze_python_code_directory_strips_imports path d r :
  analyze_python_code path (PDir d) = EOk (DirResult r) ->
  Forall stripped (da_files r)
  /\ Dict.dd_get "import_count" (da_summary r) = 0
  /\ Forall (fun p => snd p = []) (da_module_dependencies r).
Proof.
  simpl. unfold analyze_python_directory, aggregate.
  destruct (process_files false false (mk_dir_state [] []) _) as [st|ex] eqn:Hp; simpl; [|discriminate].
  destruct (total_complexity (ds_files st)) as [tc|ex]; simpl; [|discriminate].
  intros H. injection H as <-. simpl.
  destruct (process_files_no_imports false _ _ _ Hp (Forall_nil _) eq_refl) as [Hf Hs].
  split; [exact Hf|]. split; [exact Hs|].
  rewrite find_module_dependencies_eq. apply deps_empty_when_stripped; [exact Hf | constructor].
Qed.

Lemma deps_wf_assign_nil name deps : deps_wf deps -> deps_wf (Dict.assign name [] deps).
Proof.
  intros H n ms. rewrite lookup_assign. destruct (String.eqb n name).
  - intros E; injection E as <-. repeat split; auto using NoDup_nil.
  - intros E. destruct (H n ms E) as (H1 & H2 & H3 & H4). repeat split; auto.
    eapply Forall_impl; [|exact H4]. intros m. apply mem_assign.
Qed.

Lemma deps_wf_dep_step name deps imp : deps_wf deps -> deps_wf (dep_step name deps imp).
Proof.
  intros H. unfold dep_step.
  set (m := PyStr.first_seg (import_module imp)).
  set (cur := match Dict.lookup name deps with Some l => l | None => [] end).
  destruct (negb (String.eqb m "") && negb (String.eqb m name) && Dict.mem m deps
            && negb (in_set m cur)) eqn:C; [|exact H].
  apply andb_true_iff in C as [C C4]. apply andb_true_iff in C as [C C3].
  apply andb_true_iff in C as [C1 C2].
  apply negb_true_iff in C1, C2, C4. apply String.eqb_neq in C1, C2. apply in_set_false in C4.
  assert (Hcur : ~ In name cur /\ ~ In ""%string cur /\ NoDup cur
                 /\ Forall (fun x => Dict.mem x deps = true) cur).
  { unfold cur. destruct (Dict.lookup name deps) as [l|] eqn:E; [apply (H name l E)|].
    repeat split; auto using NoDup_nil. }
  destruct Hcur as (K1 & K2 & K3 & K4).
  intros n ms. rewrite lookup_assign. destruct (String.eqb_spec n name) as [->|Hne].
  - intros E; injection E as <-. repeat split.
    + rewrite in_app_iff. intros [Hi|[Hi|[]]]; [exact (K1 Hi)|congruence].
    + rewrite in_app_iff. intros [Hi|[Hi|[]]]; [exact (K2 Hi)|congruence].
    + apply NoDup_app; [exact K3 | repeat constructor; simpl; tauto|].
      intros x Hx [->|[]]. exact (C4 Hx).
    + apply Forall_app. split.
      * eapply Forall_impl; [|exact K4]. intros x. apply mem_assign.
      * constructor; [apply mem_assign, C3 | constructor].
  - intros E. destruct (H n ms E) as (H1 & H2 & H3 & H4). repeat split; auto.
    eapply Forall_impl; [|exact H4]. intros x. apply mem_assign.
Qed.

(** In [module_dependencies] no module depends on itself or on the empty name, no dependency is listed twice, and every dependency is itself a key. *)
Theorem module_dependencies_well_formed files n ms :
  Dict.lookup n (find_module_dependencies files) = Some ms ->
  ~ In n ms /\ ~ In ""%string ms /\ NoDup ms
  /\ Forall (fun m => Dict.mem m (find_module_dependencies files) = true) ms.
Proof.
  rewrite find_module_dependencies_eq. revert n ms.
  enough (G : forall d, deps_wf d -> deps_wf (fold_left dep_file_step files d))
    by (apply G; intros n ms E; discriminate).
  induction files as [|f files IH]; intros d Hd; simpl; [exact Hd|].
  apply IH. unfold dep_file_step. destruct (file_module_and_imports f) as [name imps].
  pose proof (deps_wf_assign_nil name d Hd) as Hd0. clear Hd. revert Hd0. generalize (Dict.assign name [] d).
  induction imps as [|i imps IHi]; intros d' Hd'; simpl; [exact Hd'|].
  apply IHi, deps_wf_dep_step, Hd'.
Qed.

Lemma deps_sound_mono fs fs' deps :
  incl fs fs' -> deps_sound fs deps -> deps_sound fs' deps.
Proof.
  intros Hi H n ms m E Hm. destruct (H n ms m E Hm) as (f & imp & Hf & R). exists f, imp.
  split; [apply Hi, Hf | exact R].
Qed.

(** Every edge [n -> m] of [module_dependencies] comes from a file whose module name is [n] with an import whose first dotted segment is [m]. *)
Theorem module_dependencies_sound files n ms m :
  Dict.lookup n (find_module_dependencies files) = Some ms -> In m ms ->
  exists f imp, In f files /\ fst (file_module_and_imports f) = n
                /\ In imp (snd (file_module_and_imports f))
                /\ PyStr.first_seg (import_module imp) = m.
Proof.
  rewrite find_module_dependencies_eq. revert n ms m.
  enough (G : forall pre d, deps_sound pre d ->
              deps_sound (pre ++ files) (fold_left dep_file_step files d))
    by exact (G [] [] (fun n ms m E _ => ltac:(discriminate))).
  induction files as [|f files IH]; intros pre d Hd; simpl; [rewrite app_nil_r; exact Hd|].
  replace (pre ++ f :: files) with ((pre ++ [f]) ++ files) by (rewrite <- app_assoc; reflexivity).
  apply IH. unfold dep_file_step.
  destruct (file_module_and_imports f) as [name imps] eqn:Ef.
  assert (H0 : deps_sound (pre ++ [f]) (Dict.assign name [] d)).
  { intros n ms m. rewrite lookup_assign. destruct (String.eqb n name).
    - intros E; injection E as <-. intros [].
    - intros E Hm.
      refine (deps_sound_mono pre (pre ++ [f]) d _ Hd n ms m E Hm).
      intros x Hx; apply in_app_iff; left; exact Hx. }
  assert (Hsub : incl imps (snd (file_module_and_imports f))) by (rewrite Ef; apply incl_refl).
  assert (Hname : fst (file_module_and_imports f) = name) by (rewrite Ef; reflexivity).
  clear Ef. revert H0 Hsub. generalize (Dict.assign name [] d).
  induction imps as [|i imps IHi]; intros d' Hd' Hsub; simpl; [exact Hd'|].
  apply IHi; [|intros x Hx; apply Hsub; right; exact Hx].
  unfold dep_step.
  destruct (_ && _); [|exact Hd'].
  intros n ms m. rewrite lookup_assign. destruct (String.eqb_spec n name) as [->|Hne].
  - intros E; injection E as <-. rewrite in_app_iff. intros [Hm|[<-|[]]].
    + destruct (Dict.lookup name d') as [l|] eqn:El; [|contradiction].
      exact (Hd' name l m El Hm).
    + exists f, i. split; [apply in_app_iff; right; left; reflexivity|].
      split; [exact Hname|]. split; [|reflexivity].
      apply Hsub. left. reflexivity.
  - intros E Hm. exact (Hd' n ms m E Hm).
Qed.

(** ** Instances of the further properties *)

Section Extra_witnesses.
Local Open Scope string_scope.



Lemma empty_selection_result_witness :
  Forall (fun e => selected false e = false)
         (walk_files false false "proj" (Dir "proj" [] [("README.md", ParseError "")]))
  /\ analyze_python_directory "proj" (Dir "proj" [] [("README.md", ParseError "")]) false false false
     = Ok (mk_dir_analysis "proj" [] [] 0 []).
Proof.
  assert (H : Forall (fun e => selected false e = false)
         (walk_files false false "proj" (Dir "proj" [] [("README.md", ParseError "")]))).
  { simpl. constructor; [reflexivity | constructor]. }
  split; [exact H|]. exact (empty_selection_result "proj" _ false false false H).
Defined.

Lemma directory_summary_is_sum_of_files_witness :
  exists r, analyze_python_directory "proj" dir_a_then_b true false false = Ok r
    /\ forall k, Dict.dd_get k (da_summary r)
                 = sumZ (map (fun f => sum_key k (summary_value f)) (da_files r)).
Proof.
  eexists. split; [reflexivity|].
  apply (directory_summary_is_sum_of_files "proj" dir_a_then_b true false false). reflexivity.
Defined.

Lemma avg_complexity_at_least_one_witness :
  exists r, analyze_python_directory "proj" dir_a_then_b true false false = Ok r
    /\ da_files r <> [] /\ 100 <= da_avg_complexity_hundredths r.
Proof.
  eexists. split; [reflexivity|]. split; [discriminate|].
  apply (avg_complexity_at_least_one "proj" dir_a_then_b true false false); [reflexivity | discriminate].
Defined.

Lemma include_imports_changes_only_imports_witness :
  exists r1, analyze_python_directory "proj" dir_a_then_b true false false = Ok r1
  /\ exists r2, analyze_python_directory "proj" dir_a_then_b false false false = Ok r2
    /\ map file_view (da_files r1) = map file_view (da_files r2)
    /\ (forall k, k <> "import_count"%string ->
                  Dict.dd_get k (da_summary r1) = Dict.dd_get k (da_summary r2))
    /\ da_avg_complexity_hundredths r1 = da_avg_complexity_hundredths r2.
Proof.
  eexists. split; [reflexivity|].
  apply (include_imports_changes_only_imports "proj" dir_a_then_b false false). reflexivity.
Defined.

Lemma analyze_python_code_directory_strips_imports_witness :
  exists r, analyze_python_code "proj" (PDir dir_a_then_b) = EOk (DirResult r)
    /\ Forall stripped (da_files r)
    /\ Dict.dd_get "import_count" (da_summary r) = 0
    /\ Forall (fun p => snd p = []) (da_module_dependencies r).
Proof.
  eexists. split; [reflexivity|].
  apply (analyze_python_code_directory_strips_imports "proj" dir_a_then_b). reflexivity.
Defined.

Lemma module_dependencies_well_formed_witness :
  let files := [analyze_python_file "proj/b.py" (snd file_b);
                analyze_python_file "proj/a.py" (snd file_a)] in
  Dict.lookup "a" (find_module_dependencies files) = Some ["b"%string]
  /\ ~ In "a"%string ["b"%string] /\ ~ In ""%string ["b"%string] /\ NoDup ["b"%string]
  /\ Forall (fun m => Dict.mem m (find_module_dependencies files) = true) ["b"%string].
Proof.
  cbv zeta. split; [vm_compute; reflexivity|].
  apply module_dependencies_well_formed. vm_compute. reflexivity.
Defined.

Lemma module_dependencies_sound_witness :
  let files := [analyze_python_file "proj/b.py" (snd file_b);
                analyze_python_file "proj/a.py" (snd file_a)] in
  Dict.lookup "a" (find_module_dependencies files) = Some ["b"%string]
  /\ exists f imp, In f files /\ fst (file_module_and_imports f) = "a"%string
                   /\ In imp (snd (file_module_and_imports f))
                   /\ PyStr.first_seg (import_module imp) = "b"%string.
Proof.
  cbv zeta. split; [vm_compute; reflexivity|].
  apply (module_dependencies_sound _ "a" ["b"%string]); [vm_compute; reflexivity | left; reflexivity].
Defined.

End Extra_witnesses.
